(** * opentelemetry.sdk.resources

    A shallow embedding of [opentelemetry/sdk/resources/__init__.py]:
    the [Resource] attribute map with its [merge], the resource detectors
    and [get_aggregated_resources].

    Conventions of the embedding.
    - A Python [str] is a [string]; its characters are the code points
      below 256.
    - A [LabelValue] is a [str], a [bool] or an [int].  The [float]
      alternative of the union is not embedded.
    - A Python [dict] is an association list in insertion order whose keys
      are pairwise distinct ([dict_wf]).
    - A call that may raise returns a [result]. *)

From Stdlib Require Import List String Ascii ZArith Bool Lia Arith.
From Stdlib Require Import Permutation Sorted DecimalString.
Import ListNotations.

Local Open Scope string_scope.
Local Open Scope list_scope.

(** ** Python strings *)

(** [str.split(sep)] for a separator of one character. *)
Fixpoint split (sep : ascii) (s : string) : list string :=
  match s with
  | EmptyString => [EmptyString]
  | String c s' =>
      if Ascii.eqb c sep then EmptyString :: split sep s'
      else match split sep s' with
           | [] => [String c EmptyString]
           | w :: ws => String c w :: ws
           end
  end.

(** [sep.join(ws)]. *)
Fixpoint join (sep : string) (ws : list string) : string :=
  match ws with
  | [] => EmptyString
  | [w] => w
  | w :: ws' => w ++ sep ++ join sep ws'
  end.

(** The characters [str.strip()] removes: the code points below 256 for
    which [str.isspace()] holds. *)
Definition isspace (c : ascii) : bool :=
  let n := nat_of_ascii c in
  (((9 <=? n) && (n <=? 13)) || ((28 <=? n) && (n <=? 32))
   || (n =? 133) || (n =? 160))%nat.

Fixpoint lstrip (s : string) : string :=
  match s with
  | EmptyString => EmptyString
  | String c s' => if isspace c then lstrip s' else s
  end.

Fixpoint rstrip (s : string) : string :=
  match s with
  | EmptyString => EmptyString
  | String c s' =>
      match rstrip s' with
      | EmptyString => if isspace c then EmptyString else String c EmptyString
      | r => String c r
      end
  end.

Definition strip (s : string) : string := rstrip (lstrip s).

(** [c in s] for a character [c]. *)
Fixpoint contains_char (c : ascii) (s : string) : bool :=
  match s with
  | EmptyString => false
  | String c' s' => Ascii.eqb c' c || contains_char c s'
  end.

Fixpoint count_char (c : ascii) (s : string) : nat :=
  match s with
  | EmptyString => 0
  | String c' s' => (if Ascii.eqb c' c then 1 else 0) + count_char c s'
  end.

(** ** Label values *)

(** [LabelValue = typing.Union[str, bool, int, float]]. *)
Inductive LabelValue : Type :=
| VStr (s : string)
| VBool (b : bool)
| VInt (n : Z).

(** The number a [bool] or an [int] stands for ([bool] is a subclass of
    [int]: [True == 1] and [False == 0]). *)
Definition int_of_bool (b : bool) : Z := if b then 1%Z else 0%Z.

(** [v == w] on label values. *)
Definition value_eq (v w : LabelValue) : bool :=
  match v, w with
  | VStr a, VStr b => String.eqb a b
  | VBool a, VBool b => Bool.eqb a b
  | VBool a, VInt b => Z.eqb (int_of_bool a) b
  | VInt a, VBool b => Z.eqb a (int_of_bool b)
  | VInt a, VInt b => Z.eqb a b
  | _, _ => false
  end.

(** ** Dictionaries *)

Definition Attributes : Type := list (string * LabelValue).

Definition keys (d : Attributes) : list string := map fst d.

(** The keys of a [dict] are pairwise distinct. *)
Definition dict_wf (d : Attributes) : Prop := NoDup (keys d).

(** [d.get(k)]: [None] when [k not in d]. *)
Fixpoint dict_get (k : string) (d : Attributes) : option LabelValue :=
  match d with
  | [] => None
  | (k', v) :: d' => if String.eqb k' k then Some v else dict_get k d'
  end.

(** [k in d]. *)
Definition dict_contains (k : string) (d : Attributes) : bool :=
  match dict_get k d with
  | Some _ => true
  | None => false
  end.

(** [d[k] = v]: the value of an existing key is replaced where it stands, a
    new key goes to the end. *)
Fixpoint dict_setitem (k : string) (v : LabelValue) (d : Attributes)
  : Attributes :=
  match d with
  | [] => [(k, v)]
  | (k', v') :: d' =>
      if String.eqb k' k then (k', v) :: d'
      else (k', v') :: dict_setitem k v d'
  end.

(** [d.copy()] as a value: the same items in the same order. *)
Definition dict_copy (d : Attributes) : Attributes := d.

(** [not d]. *)
Definition dict_is_empty (d : Attributes) : bool :=
  match d with
  | [] => true
  | _ :: _ => false
  end.

(** [a == b] on dictionaries: the same number of items, and every key of
    [a] is a key of [b] with an equal value. *)
Definition dict_eq (a b : Attributes) : bool :=
  Nat.eqb (List.length a) (List.length b)
  && forallb (fun kv =>
                match dict_get (fst kv) b with
                | Some w => value_eq w (snd kv)
                | None => false
                end) a.

(** The dictionary built by [{k: v for k, v in items}]: the items are
    stored from left to right. *)
Definition dict_of_items (items : list (string * LabelValue)) : Attributes :=
  fold_left (fun d kv => dict_setitem (fst kv) (snd kv) d) items [].

(** ** Errors *)

(** The exceptions the module can meet.  [BaseException_] stands for the
    exceptions that do not derive from [Exception] (such as [SystemExit]),
    which [except Exception] does not catch. *)
Inductive exn : Type :=
| ValueError
| UnboundLocalError
| IndexError
| TimeoutError
| Exception_ (name : string)
| BaseException_ (name : string).

Definition is_Exception (e : exn) : bool :=
  match e with
  | BaseException_ _ => false
  | _ => true
  end.

Inductive result (A : Type) : Type :=
| Return (a : A)
| Raise (e : exn).

Arguments Return {A} a.
Arguments Raise {A} e.

Definition bind {A B : Type} (c : result A) (k : A -> result B) : result B :=
  match c with
  | Return a => k a
  | Raise e => Raise e
  end.

Notation "x <- c ;; k" := (bind c (fun x => k))
  (at level 61, c at next level, right associativity).

Definition raises {A : Type} (c : result A) : bool :=
  match c with
  | Return _ => false
  | Raise _ => true
  end.

(** ** Resource *)

Record Resource : Type := mkResource { _attributes : Attributes }.

(** [Resource.__init__]: [self._attributes = attributes.copy()]. *)
Definition Resource_init (attributes : Attributes) : Resource :=
  {| _attributes := dict_copy attributes |}.

(** The [attributes] property: [self._attributes.copy()]. *)
Definition attributes (self : Resource) : Attributes :=
  dict_copy (_attributes self).

(** The test of the loop of [merge]: the key is not in
    [merged_attributes], or the value at the key equals the empty string.
    The subscript is evaluated only when the key is present. *)
Definition merge_test (key : string) (merged_attributes : Attributes) : bool :=
  negb (dict_contains key merged_attributes)
  || match dict_get key merged_attributes with
     | Some v => value_eq v (VStr EmptyString)
     | None => false
     end.

(** One turn of the loop of [merge]. *)
Definition merge_step (merged_attributes : Attributes)
  (item : string * LabelValue) : Attributes :=
  let (key, value) := item in
  if merge_test key merged_attributes
  then dict_setitem key value merged_attributes
  else merged_attributes.

(** [Resource.merge]. *)
Definition merge (self other : Resource) : Resource :=
  let merged_attributes := attributes self in
  Resource_init (fold_left merge_step (_attributes other) merged_attributes).

(** [Resource.__eq__], for an [other] that is a [Resource]. *)
Definition Resource_eq (self other : Resource) : bool :=
  dict_eq (_attributes self) (_attributes other).

(** *** [json.dumps(..., sort_keys=True)] *)

Definition chr (n : nat) : ascii := ascii_of_nat n.

Definition hex_digit (n : nat) : ascii :=
  if (n <? 10)%nat then chr (48 + n) else chr (87 + n).

(** The escape of one character with [ensure_ascii=True]: short escapes for
    the quote, the backslash and five control characters, [\u00xx] for every
    other character outside the range from the space to the tilde. *)
Definition escape_char (c : ascii) : string :=
  let n := nat_of_ascii c in
  let bs := chr 92 in
  if (n =? 34)%nat then String bs (String (chr 34) EmptyString)
  else if (n =? 92)%nat then String bs (String bs EmptyString)
  else if (n =? 10)%nat then String bs "n"
  else if (n =? 13)%nat then String bs "r"
  else if (n =? 9)%nat then String bs "t"
  else if (n =? 8)%nat then String bs "b"
  else if (n =? 12)%nat then String bs "f"
  else if ((32 <=? n) && (n <=? 126))%nat then String c EmptyString
  else String bs
         (String "u" (String "0" (String "0"
            (String (hex_digit (n / 16))
               (String (hex_digit (n mod 16)) EmptyString))))).

Fixpoint escape (s : string) : string :=
  match s with
  | EmptyString => EmptyString
  | String c s' => (escape_char c ++ escape s')%string
  end.

Definition encode_str (s : string) : string :=
  String (chr 34) (escape s ++ String (chr 34) EmptyString)%string.

(** [repr] of an [int]. *)
Definition repr_int (n : Z) : string := NilZero.string_of_int (Z.to_int n).

Definition encode_value (v : LabelValue) : string :=
  match v with
  | VStr s => encode_str s
  | VBool true => "true"
  | VBool false => "false"
  | VInt n => repr_int n
  end.

(** [sorted(dct.items())]: the keys are distinct, so the items are ordered by
    their keys, compared as strings are, code point by code point. *)
Fixpoint insert_item (kv : string * LabelValue) (l : Attributes)
  : Attributes :=
  match l with
  | [] => [kv]
  | kv' :: l' =>
      if String.leb (fst kv) (fst kv') then kv :: l
      else kv' :: insert_item kv l'
  end.

Definition sorted_items (d : Attributes) : Attributes :=
  fold_right insert_item [] d.

(** The order of the sort: the keys compared as strings are. *)
Definition key_le (a b : string * LabelValue) : Prop :=
  String.leb (fst a) (fst b) = true.

Definition encode_item (kv : string * LabelValue) : string :=
  (encode_str (fst kv) ++ ": " ++ encode_value (snd kv))%string.

Definition dumps_sort_keys (d : Attributes) : string :=
  ("{" ++ join ", " (map encode_item (sorted_items d)) ++ "}")%string.

Definition TELEMETRY_SDK_LANGUAGE : string := "telemetry.sdk.language".
Definition TELEMETRY_SDK_NAME : string := "telemetry.sdk.name".
Definition TELEMETRY_SDK_VERSION : string := "telemetry.sdk.version".

Definition _EMPTY_RESOURCE : Resource := Resource_init [].

Section Installation.

(** The version of the installed distribution, which the module reads
    from [pkg_resources]. *)
Variable OPENTELEMETRY_SDK_VERSION : string.

(** The built-in [hash] on [str]. *)
Variable hash : string -> Z.

(** [Resource.__hash__]. *)
Definition Resource_hash (self : Resource) : Z :=
  hash (dumps_sort_keys (_attributes self)).

Definition _DEFAULT_RESOURCE : Resource :=
  Resource_init
    [ (TELEMETRY_SDK_LANGUAGE, VStr "python");
      (TELEMETRY_SDK_NAME, VStr "opentelemetry");
      (TELEMETRY_SDK_VERSION, VStr OPENTELEMETRY_SDK_VERSION) ].

(** [Resource.create]. *)
Definition create (attributes : Attributes) : Resource :=
  if dict_is_empty attributes then _DEFAULT_RESOURCE
  else merge _DEFAULT_RESOURCE (Resource_init attributes).

End Installation.

(** [Resource.create_empty]. *)
Definition create_empty : Resource := _EMPTY_RESOURCE.

(** ** Detectors *)

(** A [ResourceDetector]: its flag and what a call of its [detect] does,
    which is to return a [Resource] or to raise. *)
Record ResourceDetector : Type := mkDetector {
  raise_on_error : bool;
  detect : result Resource
}.

(** [key, value = parts]. *)
Definition unpack2 (parts : list string) : result (string * string) :=
  match parts with
  | [key; value] => Return (key, value)
  | _ => Raise ValueError
  end.

(** The dictionary comprehension of [OTELResourceDetector.detect]: for each
    item in turn, [item.split("=")] is unpacked into [key, value] and
    [key.strip()] is set to [value.strip()]. *)
Fixpoint env_comprehension (items : list string) (acc : Attributes)
  : result Attributes :=
  match items with
  | [] => Return acc
  | item :: items' =>
      kv <- unpack2 (split "=" item) ;;
      env_comprehension items'
        (dict_setitem (strip (fst kv)) (VStr (strip (snd kv))) acc)
  end.

(** [OTELResourceDetector.detect]; [environ] is
    [os.environ.get("OTEL_RESOURCE_ATTRIBUTES")]. *)
Definition OTELResourceDetector_detect (environ : option string)
  : result Resource :=
  match environ with
  | Some (String c s as env_resources_items) =>
      env_resource_map <- env_comprehension (split "," env_resources_items) [] ;;
      Return (Resource_init env_resource_map)
  | _ => Return (Resource_init [])
  end.

(** [OTELResourceDetector()]: [raise_on_error] keeps its default. *)
Definition OTELResourceDetector (environ : option string) : ResourceDetector :=
  {| raise_on_error := false; detect := OTELResourceDetector_detect environ |}.

(** ** Aggregation *)

(** A future as [future.result(timeout=timeout)] finds it: the call has ended,
    by a return or by a raise, or it is still running when the wait is
    over.  Every call is taken to end at some time, so that leaving the
    [with] block, which waits for the pool, ends too. *)
Inductive Future : Type :=
| Finished (outcome : result Resource)
| Running.

Definition Future_result (future : Future) : result Resource :=
  match future with
  | Finished outcome => outcome
  | Running => Raise TimeoutError
  end.

(** [executor.submit(detector.detect)] for the detector at position [i]; the
    pool is the oracle [done], which tells whether the call at a position
    has ended by the end of the wait for it. *)
Definition submit (done : nat -> bool) (i : nat) (detector : ResourceDetector)
  : Future :=
  if done i then Finished (detect detector) else Running.

Fixpoint submit_all (done : nat -> bool) (i : nat)
  (detectors : list ResourceDetector) : list Future :=
  match detectors with
  | [] => []
  | detector :: detectors' =>
      submit done i detector :: submit_all done (S i) detectors'
  end.

(** An exception that leaves the [try] statement: the [finally] clause runs
    first, and its merge needs [detected_resources] to be bound.  The
    merged value is lost with the frame. *)
Definition finally_raise (ex : exn) (detected_resources : option Resource)
  : result Resource :=
  match detected_resources with
  | None => Raise UnboundLocalError
  | Some _ => Raise ex
  end.

(** The loop of [get_aggregated_resources] over [enumerate(futures)], with
    the two locals it updates. *)
Fixpoint aggregate (detectors : list ResourceDetector) (futures : list Future)
  (detector_ind : nat) (final_resource : Resource)
  (detected_resources : option Resource) : result Resource :=
  match futures with
  | [] => Return final_resource
  | future :: futures' =>
      match nth_error detectors detector_ind with
      | None => Raise IndexError
      | Some detector =>
          match Future_result future with
          | Return r =>
              aggregate detectors futures' (S detector_ind)
                (merge final_resource r) (Some r)
          | Raise ex =>
              if is_Exception ex then
                if raise_on_error detector
                then finally_raise ex detected_resources
                else
                  aggregate detectors futures' (S detector_ind)
                    (merge final_resource _EMPTY_RESOURCE)
                    (Some _EMPTY_RESOURCE)
              else finally_raise ex detected_resources
          end
      end
  end.

(** [get_aggregated_resources]. *)
Definition get_aggregated_resources (environ : option string)
  (done : nat -> bool) (detectors : list ResourceDetector)
  (initial_resource : option Resource) : result Resource :=
  let final_resource :=
    match initial_resource with
    | Some r => r
    | None => _EMPTY_RESOURCE
    end in
  let detectors := OTELResourceDetector environ :: detectors in
  let futures := submit_all done 0 detectors in
  aggregate detectors futures 0 final_resource None.

(** ** The objects behind a Resource

    [Resource.__init__], the [attributes] property and [merge] once more,
    now over a store of dictionary objects, so that copies, shared
    references and writes in place are explicit.  A [Resource] object holds
    the address of its [_attributes] dictionary. *)
Module Store.

Definition addr : Type := nat.

(** The dictionary objects, by address. *)
Definition heap : Type := list Attributes.

Definition M (A : Type) : Type := heap -> A * heap.

Definition ret {A : Type} (a : A) : M A := fun h => (a, h).

Definition bind {A B : Type} (c : M A) (k : A -> M B) : M B :=
  fun h => let (a, h') := c h in k a h'.

Notation "x <~ c ;; k" := (bind c (fun x => k))
  (at level 61, c at next level, right associativity).

(** The dictionary at an address. *)
Definition content (a : addr) (h : heap) : Attributes := nth a h [].

Definition load (a : addr) : M Attributes := fun h => (content a h, h).

(** A new object takes the next free address. *)
Definition alloc (d : Attributes) : M addr :=
  fun h => (List.length h, h ++ [d]).

Fixpoint update (a : addr) (d : Attributes) (h : heap) : heap :=
  match h, a with
  | [], _ => []
  | _ :: h', O => d :: h'
  | d' :: h', S a' => d' :: update a' d h'
  end.

Definition write (a : addr) (d : Attributes) : M unit :=
  fun h => (tt, update a d h).

(** [d.copy()]: a new object with the items of [d]. *)
Definition copy (a : addr) : M addr :=
  d <~ load a ;; alloc d.

(** [d[k] = v], in place. *)
Definition setitem (a : addr) (k : string) (v : LabelValue) : M unit :=
  d <~ load a ;; write a (dict_setitem k v d).

Record ResourceObj : Type := mkObj { _attributes : addr }.

(** [Resource.__init__]. *)
Definition Resource_init (attributes : addr) : M ResourceObj :=
  a <~ copy attributes ;; ret {| _attributes := a |}.

(** The [attributes] property. *)
Definition attributes (self : ResourceObj) : M addr :=
  copy (_attributes self).

(** One turn of the loop of [merge], on the object [merged_attributes]. *)
Definition merge_turn (merged_attributes : addr)
  (item : string * LabelValue) : M unit :=
  d <~ load merged_attributes ;;
  if merge_test (fst item) d
  then setitem merged_attributes (fst item) (snd item)
  else ret tt.

Fixpoint merge_loop (merged_attributes : addr)
  (items : list (string * LabelValue)) : M unit :=
  match items with
  | [] => ret tt
  | item :: items' =>
      _ <~ merge_turn merged_attributes item ;;
      merge_loop merged_attributes items'
  end.

(** [Resource.merge]: the loop reads the items of [other._attributes] and
    writes to [merged_attributes] only. *)
Definition merge (self other : ResourceObj) : M ResourceObj :=
  merged_attributes <~ attributes self ;;
  items <~ load (_attributes other) ;;
  _ <~ merge_loop merged_attributes items ;;
  Resource_init merged_attributes.

(** [Resource.create]; [default] is the object [_DEFAULT_RESOURCE]. *)
Definition create (default : ResourceObj) (attributes : addr)
  : M ResourceObj :=
  d <~ load attributes ;;
  if dict_is_empty d then ret default
  else (r <~ Resource_init attributes ;; merge default r).

(** The value a [Resource] object stands for in a store. *)
Definition value_of (self : ResourceObj) (h : heap) : Resource :=
  mkResource (content (_attributes self) h).

End Store.

(** ** The sequential reading of the aggregation *)

(** The fold the specification describes: starting from the initial
    resource, each detected resource is merged in turn. *)
Definition fold_merge (initial : Resource) (detected : list Resource)
  : Resource :=
  fold_left merge detected initial.

(** The value the loop of [merge] leaves at a key, from the value [a] the
    copy of [self] had there and the value [b] that [other] has. *)
Definition merged_value (a b : option LabelValue) : option LabelValue :=
  match a with
  | None => b
  | Some v =>
      if value_eq v (VStr EmptyString)
      then match b with
           | Some w => Some w
           | None => Some v
           end
      else Some v
  end.

(** Two dictionaries have the same keys, with equal values key by key. *)
Definition same_items (a b : Attributes) : Prop :=
  forall k,
    match dict_get k a, dict_get k b with
    | Some v, Some w => value_eq w v = true
    | None, None => True
    | _, _ => False
    end.

(** ** The environment variable as the specification reads it *)

(** The part of [s] before the first [c] and the part after it. *)
Fixpoint partition_first (c : ascii) (s : string) : string * string :=
  match s with
  | EmptyString => (EmptyString, EmptyString)
  | String c' s' =>
      if Ascii.eqb c' c then (EmptyString, s')
      else let (k, v) := partition_first c s' in (String c' k, v)
  end.

(** An entry split on its first [=], both sides trimmed. *)
Definition spec_pair (item : string) : string * LabelValue :=
  let (k, v) := partition_first "=" item in (strip k, VStr (strip v)).

(** The attributes the specification gives for a value of the variable: the
    pairs of its comma-separated entries. *)
Definition spec_env_map (s : string) : Attributes :=
  dict_of_items (map spec_pair (split "," s)).

(** ** The loop of the aggregation, by what it sees *)

(** What the loop sees of the detector at a position: its flag and what the
    wait on its future gives. *)
Definition observe (done : nat -> bool) (i : nat) (detector : ResourceDetector)
  : bool * result Resource :=
  (raise_on_error detector, Future_result (submit done i detector)).

Fixpoint observe_all (done : nat -> bool) (i : nat)
  (detectors : list ResourceDetector) : list (bool * result Resource) :=
  match detectors with
  | [] => []
  | detector :: detectors' =>
      observe done i detector :: observe_all done (S i) detectors'
  end.

(** The loop over what is seen. *)
Fixpoint fold_observed (obs : list (bool * result Resource))
  (final_resource : Resource) (detected_resources : option Resource)
  : result Resource :=
  match obs with
  | [] => Return final_resource
  | (flag, Return r) :: obs' =>
      fold_observed obs' (merge final_resource r) (Some r)
  | (flag, Raise ex) :: obs' =>
      if is_Exception ex then
        if flag then finally_raise ex detected_resources
        else fold_observed obs' (merge final_resource _EMPTY_RESOURCE)
               (Some _EMPTY_RESOURCE)
      else finally_raise ex detected_resources
  end.

(** The wait on a detector ends the aggregation: it raises, and the
    exception is not contained. *)
Definition aborting (o : bool * result Resource) : bool :=
  match snd o with
  | Return _ => false
  | Raise ex => negb (is_Exception ex) || fst o
  end.

(** What a detector that does not end the aggregation adds to the result:
    the resource it returns, or the empty resource when it failed. *)
Definition contribution (o : bool * result Resource) : Resource :=
  match snd o with
  | Return r => r
  | Raise _ => _EMPTY_RESOURCE
  end.

(** The resource the fold starts from: [initial_resource or _EMPTY_RESOURCE]. *)
Definition seed (initial_resource : option Resource) : Resource :=
  match initial_resource with
  | Some r => r
  | None => _EMPTY_RESOURCE
  end.

(** A detector that returns the empty resource. *)
Definition quiet_detector : ResourceDetector :=
  {| raise_on_error := false; detect := Return _EMPTY_RESOURCE |}.

(** ** Whitespace at the ends of a string, and the text of a list of pairs *)

Definition starts_with_space (s : string) : bool :=
  match s with
  | EmptyString => false
  | String c _ => isspace c
  end.

Fixpoint ends_with_space (s : string) : bool :=
  match s with
  | EmptyString => false
  | String c EmptyString => isspace c
  | String _ s' => ends_with_space s'
  end.

(** A string with no whitespace at either end. *)
Definition trimmed (s : string) : Prop :=
  starts_with_space s = false /\ ends_with_space s = false.

(** The text [k=v] of a pair, and the text of a list of pairs, separated by
    commas: the format the environment variable is read in. *)
Definition format_pair (kv : string * string) : string :=
  (fst kv ++ "=" ++ snd kv)%string.

Definition format_pairs (kvs : list (string * string)) : string :=
  join "," (map format_pair kvs).

(** * Properties *)

(** ** Dictionaries *)

Lemma value_eq_empty_str (v : LabelValue) :
  value_eq v (VStr EmptyString) = true <-> v = VStr EmptyString.
Proof.
  destruct v as [s | b | n]; simpl; split; try discriminate.
  - intros H. apply String.eqb_eq in H. now subst.
  - intros H. injection H as ->. reflexivity.
Qed.

Lemma value_eq_refl (v : LabelValue) : value_eq v v = true.
Proof.
  destruct v as [s | b | n]; simpl.
  - apply String.eqb_refl.
  - now destruct b.
  - apply Z.eqb_refl.
Qed.

Lemma dict_get_None (k : string) (d : Attributes) :
  dict_get k d = None <-> ~ In k (keys d).
Proof.
  induction d as [| [k' v] d IH]; simpl.
  - tauto.
  - destruct (String.eqb_spec k' k) as [-> | Hne].
    + split; [discriminate | intros H; exfalso; auto].
    + rewrite IH. tauto.
Qed.

Lemma dict_get_Some_In (k : string) (v : LabelValue) (d : Attributes) :
  dict_get k d = Some v -> In (k, v) d.
Proof.
  induction d as [| [k' v'] d IH]; simpl; [discriminate |].
  destruct (String.eqb_spec k' k) as [-> | Hne].
  - intros [= ->]. now left.
  - auto.
Qed.

Lemma dict_get_In_keys (k : string) (d : Attributes) :
  In k (keys d) <-> exists v, dict_get k d = Some v.
Proof.
  destruct (dict_get k d) as [v |] eqn:E.
  - split; [eauto | intros _].
    apply dict_get_Some_In in E. apply (in_map fst) in E. exact E.
  - apply dict_get_None in E. split; [tauto | intros [v Hv]; discriminate].
Qed.

Lemma dict_get_of_In (k : string) (v : LabelValue) (d : Attributes) :
  dict_wf d -> In (k, v) d -> dict_get k d = Some v.
Proof.
  unfold dict_wf.
  induction d as [| [k' v'] d IH]; simpl; [tauto |].
  intros Hnd [Heq | Hin].
  - injection Heq as -> ->. now rewrite String.eqb_refl.
  - inversion Hnd as [| ? ? Hnotin Hnd']; subst.
    destruct (String.eqb_spec k' k) as [-> | Hne].
    + exfalso. apply Hnotin. apply (in_map fst) in Hin. exact Hin.
    + auto.
Qed.

Lemma dict_contains_keys (k : string) (d : Attributes) :
  dict_contains k d = true <-> In k (keys d).
Proof.
  unfold dict_contains. rewrite dict_get_In_keys.
  destruct (dict_get k d); split; eauto; try discriminate.
  intros [v Hv]. discriminate.
Qed.

Lemma dict_get_setitem_same (k : string) (v : LabelValue) (d : Attributes) :
  dict_get k (dict_setitem k v d) = Some v.
Proof.
  induction d as [| [k' v'] d IH]; simpl.
  - now rewrite String.eqb_refl.
  - destruct (String.eqb k' k) eqn:E; simpl; rewrite E; auto.
Qed.

Lemma dict_get_setitem_other (k k' : string) (v : LabelValue)
  (d : Attributes) :
  k <> k' -> dict_get k' (dict_setitem k v d) = dict_get k' d.
Proof.
  intros Hne. induction d as [| [k0 v0] d IH]; simpl.
  - apply String.eqb_neq in Hne. now rewrite Hne.
  - destruct (String.eqb_spec k0 k) as [-> | Hne0]; simpl.
    + apply String.eqb_neq in Hne. now rewrite Hne.
    + now rewrite IH.
Qed.

Lemma keys_setitem (k k' : string) (v : LabelValue) (d : Attributes) :
  In k' (keys (dict_setitem k v d)) <-> k' = k \/ In k' (keys d).
Proof.
  rewrite !dict_get_In_keys.
  destruct (string_dec k k') as [<- | Hne].
  - rewrite dict_get_setitem_same. split; eauto.
  - rewrite dict_get_setitem_other by assumption.
    split; [eauto | intros [Heq | H]; [congruence | exact H]].
Qed.

Lemma dict_setitem_new (k : string) (v : LabelValue) (d : Attributes) :
  ~ In k (keys d) -> dict_setitem k v d = d ++ [(k, v)].
Proof.
  induction d as [| [k' v'] d IH]; simpl; [reflexivity |].
  intros Hnotin.
  destruct (String.eqb_spec k' k) as [-> | Hne].
  - exfalso. auto.
  - f_equal. apply IH. tauto.
Qed.

Lemma keys_setitem_present (k : string) (v : LabelValue) (d : Attributes) :
  In k (keys d) -> keys (dict_setitem k v d) = keys d.
Proof.
  induction d as [| [k' v'] d IH]; simpl; [tauto |].
  intros Hin.
  destruct (String.eqb_spec k' k) as [-> | Hne]; simpl.
  - reflexivity.
  - f_equal. apply IH. destruct Hin; [congruence | assumption].
Qed.

Lemma dict_wf_setitem (k : string) (v : LabelValue) (d : Attributes) :
  dict_wf d -> dict_wf (dict_setitem k v d).
Proof.
  unfold dict_wf. intros Hwf.
  destruct (in_dec string_dec k (keys d)) as [Hin | Hnotin].
  - now rewrite keys_setitem_present.
  - rewrite dict_setitem_new by assumption.
    unfold keys. rewrite map_app. simpl.
    apply NoDup_app; [exact Hwf | repeat constructor; simpl; tauto |].
    intros x Hx [<- | []]. auto.
Qed.

Lemma dict_eq_refl (d : Attributes) : dict_wf d -> dict_eq d d = true.
Proof.
  intros Hwf. unfold dict_eq. rewrite Nat.eqb_refl. simpl.
  apply forallb_forall. intros [k v] Hin. simpl.
  rewrite (dict_get_of_In k v d Hwf Hin). apply value_eq_refl.
Qed.

(** ** merge *)

Lemma merge_test_absent (k : string) (d : Attributes) :
  dict_get k d = None -> merge_test k d = true.
Proof.
  intros H. unfold merge_test, dict_contains. now rewrite H.
Qed.

Lemma merge_test_present (k : string) (v : LabelValue) (d : Attributes) :
  dict_get k d = Some v -> merge_test k d = value_eq v (VStr EmptyString).
Proof.
  intros H. unfold merge_test, dict_contains. now rewrite H.
Qed.

Lemma merge_loop_keys (items merged : Attributes) (k : string) :
  In k (keys (fold_left merge_step items merged))
  <-> In k (keys merged) \/ In k (keys items).
Proof.
  revert merged.
  induction items as [| [k0 v0] items IH]; intros merged; simpl.
  - tauto.
  - rewrite IH.
    destruct (merge_test k0 merged) eqn:T.
    + rewrite keys_setitem. split; intros H; intuition auto.
    + assert (Hin : In k0 (keys merged)).
      { destruct (dict_get k0 merged) as [v |] eqn:G.
        - apply dict_get_In_keys. eauto.
        - rewrite merge_test_absent in T by assumption. discriminate. }
      split; intros H; intuition (subst; auto).
Qed.

Lemma merge_loop_get (items merged : Attributes) (k : string) :
  dict_wf items ->
  dict_get k (fold_left merge_step items merged)
  = merged_value (dict_get k merged) (dict_get k items).
Proof.
  unfold dict_wf. revert merged.
  induction items as [| [k0 v0] items IH]; intros merged Hnd; simpl.
  - unfold merged_value.
    destruct (dict_get k merged) as [v |]; [| reflexivity].
    now destruct (value_eq v (VStr EmptyString)).
  - inversion Hnd as [| ? ? Hnotin Hnd']; subst.
    rewrite IH by assumption.
    destruct (String.eqb_spec k0 k) as [-> | Hne].
    + assert (Hrest : dict_get k items = None)
        by (apply dict_get_None; exact Hnotin).
      rewrite Hrest. unfold merged_value.
      destruct (dict_get k merged) as [v |] eqn:G.
      * rewrite (merge_test_present k v merged G).
        destruct (value_eq v (VStr EmptyString)) eqn:E.
        -- rewrite dict_get_setitem_same.
           now destruct (value_eq v0 (VStr EmptyString)).
        -- now rewrite G, E.
      * rewrite merge_test_absent by assumption.
        rewrite dict_get_setitem_same.
        now destruct (value_eq v0 (VStr EmptyString)).
    + destruct (merge_test k0 merged); [| reflexivity].
      now rewrite dict_get_setitem_other.
Qed.

Lemma merge_loop_wf (items merged : Attributes) :
  dict_wf merged -> dict_wf (fold_left merge_step items merged).
Proof.
  revert merged.
  induction items as [| [k0 v0] items IH]; intros merged Hwf; simpl.
  - exact Hwf.
  - apply IH. destruct (merge_test k0 merged); [| exact Hwf].
    now apply dict_wf_setitem.
Qed.

Lemma merge_loop_fresh (items merged : Attributes) :
  dict_wf (merged ++ items) ->
  fold_left merge_step items merged = merged ++ items.
Proof.
  unfold dict_wf, keys. revert merged.
  induction items as [| [k0 v0] items IH]; intros merged Hnd; simpl.
  - now rewrite app_nil_r.
  - assert (Hnotin : ~ In k0 (map fst merged)).
    { rewrite map_app in Hnd. simpl in Hnd.
      apply NoDup_remove_2 in Hnd. intros Hin. apply Hnd.
      apply in_or_app. now left. }
    rewrite merge_test_absent by (apply dict_get_None; exact Hnotin).
    rewrite dict_setitem_new by exact Hnotin.
    rewrite IH; rewrite <- app_assoc; simpl; [reflexivity | exact Hnd].
Qed.

Lemma merge_attributes (self other : Resource) :
  _attributes (merge self other)
  = fold_left merge_step (_attributes other) (_attributes self).
Proof. reflexivity. Qed.

Lemma merge_empty_r (A : Resource) : merge A _EMPTY_RESOURCE = A.
Proof. now destruct A. Qed.

Lemma merge_empty_l (A : Resource) :
  dict_wf (_attributes A) -> merge _EMPTY_RESOURCE A = A.
Proof.
  destruct A as [d]. simpl. intros Hwf.
  unfold merge, Resource_init, attributes, dict_copy. simpl.
  f_equal. now apply (merge_loop_fresh d []).
Qed.

(** The values of a merge, key by key. *)
Lemma merge_values (A B : Resource) :
  dict_wf (_attributes B) ->
  (forall k v,
      dict_get k (attributes A) = Some v -> v <> VStr EmptyString ->
      dict_get k (attributes (merge A B)) = Some v)
  /\ (forall k w,
         dict_get k (attributes A) = Some (VStr EmptyString) ->
         dict_get k (attributes B) = Some w ->
         dict_get k (attributes (merge A B)) = Some w)
  /\ (forall k w,
         dict_get k (attributes A) = None ->
         dict_get k (attributes B) = Some w ->
         dict_get k (attributes (merge A B)) = Some w).
Proof.
  intros HB. unfold attributes, dict_copy. rewrite merge_attributes.
  split; [| split].
  - intros k v HA Hv. rewrite merge_loop_get, HA by assumption. simpl.
    destruct (value_eq v (VStr EmptyString)) eqn:E; [| reflexivity].
    apply value_eq_empty_str in E. contradiction.
  - intros k w HA Hw. now rewrite merge_loop_get, HA, Hw by assumption.
  - intros k w HA Hw. now rewrite merge_loop_get, HA, Hw by assumption.
Qed.

(** Claim C1.  For a resource [B] whose dictionary has distinct keys, as
    every dictionary has, the keys of [A.merge(B)] are the keys of [A]
    together with the keys of [B]; a key of [A] whose value is not the empty
    string keeps the value of [A]; a key of [A] holding the empty string that
    is also a key of [B] takes the value of [B]; and a key of [B] alone takes
    the value of [B]. *)
Theorem merge_precedence (A B : Resource) :
  dict_wf (_attributes B) ->
  (forall k,
      In k (keys (attributes (merge A B)))
      <-> In k (keys (attributes A)) \/ In k (keys (attributes B)))
  /\ (forall k v,
         dict_get k (attributes A) = Some v -> v <> VStr EmptyString ->
         dict_get k (attributes (merge A B)) = Some v)
  /\ (forall k w,
         dict_get k (attributes A) = Some (VStr EmptyString) ->
         dict_get k (attributes B) = Some w ->
         dict_get k (attributes (merge A B)) = Some w)
  /\ (forall k w,
         dict_get k (attributes A) = None ->
         dict_get k (attributes B) = Some w ->
         dict_get k (attributes (merge A B)) = Some w).
Proof.
  intros HB. split; [| exact (merge_values A B HB)].
  intros k. unfold attributes, dict_copy. rewrite merge_attributes.
  apply merge_loop_keys.
Qed.

Lemma merge_precedence_witness :
  let A := Resource_init [("a", VStr EmptyString); ("b", VStr "x")] in
  let B := Resource_init [("a", VStr "1"); ("c", VBool true)] in
  dict_wf (_attributes B)
  /\ forall k w,
      dict_get k (attributes A) = Some (VStr EmptyString) ->
      dict_get k (attributes B) = Some w ->
      dict_get k (attributes (merge A B)) = Some w.
Proof.
  intros A B.
  assert (HB : dict_wf (_attributes B)).
  { unfold dict_wf. simpl. repeat constructor; simpl; intuition discriminate. }
  split; [exact HB |].
  exact (proj1 (proj2 (proj2 (merge_precedence A B HB)))).
Defined.

(** Claim C10.  The empty resource is an identity of [merge] on both sides:
    [A.merge(create_empty())] and [create_empty().merge(A)] have the
    attributes of [A], item for item and in the same order, and [==] holds
    between each of them and [A]. *)
Theorem merge_create_empty_identity (A : Resource) :
  dict_wf (_attributes A) ->
  merge A create_empty = A
  /\ merge create_empty A = A
  /\ Resource_eq (merge A create_empty) A = true
  /\ Resource_eq (merge create_empty A) A = true.
Proof.
  intros Hwf. unfold create_empty.
  rewrite merge_empty_r, merge_empty_l by assumption.
  repeat split; apply dict_eq_refl; assumption.
Qed.

Lemma merge_create_empty_identity_witness :
  let A := Resource_init [("service.name", VStr "shop"); ("pid", VInt 7)] in
  dict_wf (_attributes A)
  /\ merge A create_empty = A
  /\ merge create_empty A = A.
Proof.
  intros A.
  assert (HA : dict_wf (_attributes A)).
  { unfold dict_wf. simpl. repeat constructor; simpl; intuition discriminate. }
  split; [exact HA |].
  destruct (merge_create_empty_identity A HA) as (H1 & H2 & _).
  split; [exact H1 | exact H2].
Defined.

(** ** create *)

Lemma default_wf (version : string) :
  dict_wf (_attributes (_DEFAULT_RESOURCE version)).
Proof.
  unfold dict_wf. simpl.
  repeat constructor; simpl; intuition discriminate.
Qed.

(** Claim C3.  [Resource.create] returns [_DEFAULT_RESOURCE] itself for an
    empty collection, with no object made and no merge run, and
    [_DEFAULT_RESOURCE.merge(Resource(attributes))] otherwise; so a key of
    both the default map and the caller's attributes keeps the default value
    unless that value is the empty string, in which case it takes the
    caller's. *)
Theorem create_default_precedence (version : string) :
  create version [] = _DEFAULT_RESOURCE version
  /\ (forall (h : Store.heap) (default : Store.ResourceObj) (a : Store.addr),
         Store.content a h = [] -> Store.create default a h = (default, h))
  /\ (forall attrs,
         attrs <> [] ->
         create version attrs
         = merge (_DEFAULT_RESOURCE version) (Resource_init attrs))
  /\ (forall attrs k dv,
         dict_wf attrs ->
         In k (keys attrs) ->
         dict_get k (attributes (_DEFAULT_RESOURCE version)) = Some dv ->
         dv <> VStr EmptyString ->
         dict_get k (attributes (create version attrs)) = Some dv)
  /\ (forall attrs k w,
         dict_wf attrs ->
         dict_get k attrs = Some w ->
         dict_get k (attributes (_DEFAULT_RESOURCE version))
         = Some (VStr EmptyString) ->
         dict_get k (attributes (create version attrs)) = Some w).
Proof.
  split; [reflexivity |].
  split.
  { intros h default a Ha. unfold Store.create, Store.bind, Store.load.
    now rewrite Ha. }
  split.
  { intros [| kv attrs] Hne; [contradiction | reflexivity]. }
  split.
  - intros attrs k dv Hwf Hin Hd Hdv.
    destruct attrs as [| kv attrs]; [contradiction |].
    unfold create. simpl dict_is_empty. cbv iota.
    destruct (merge_values (_DEFAULT_RESOURCE version)
                (Resource_init (kv :: attrs)) Hwf) as (Hkeep & _).
    now apply Hkeep.
  - intros attrs k w Hwf Hw Hd.
    destruct attrs as [| kv attrs]; [discriminate |].
    unfold create. simpl dict_is_empty. cbv iota.
    destruct (merge_values (_DEFAULT_RESOURCE version)
                (Resource_init (kv :: attrs)) Hwf) as (_ & Hover & _).
    now apply Hover.
Qed.

Lemma create_default_precedence_witness :
  let attrs := [(TELEMETRY_SDK_NAME, VStr "mine"); ("x", VStr "y")] in
  dict_wf attrs
  /\ dict_get TELEMETRY_SDK_NAME (attributes (create "0.13" attrs))
     = Some (VStr "opentelemetry").
Proof.
  intros attrs.
  assert (Hwf : dict_wf attrs).
  { unfold dict_wf. simpl. repeat constructor; simpl; intuition discriminate. }
  split; [exact Hwf |].
  refine (proj1 (proj2 (proj2 (proj2 (create_default_precedence "0.13"))))
            attrs TELEMETRY_SDK_NAME (VStr "opentelemetry") Hwf _ _ _).
  - simpl. now left.
  - reflexivity.
  - discriminate.
Defined.

(** ** The environment detector *)

Lemma split_no_sep (c : ascii) (s : string) :
  contains_char c s = false -> split c s = [s].
Proof.
  induction s as [| c' s IH]; simpl; [reflexivity |].
  destruct (Ascii.eqb c' c); simpl; [discriminate |].
  intros H. now rewrite IH.
Qed.

Lemma count_char_zero (c : ascii) (s : string) :
  count_char c s = 0 -> contains_char c s = false.
Proof.
  induction s as [| c' s IH]; simpl; [reflexivity |].
  destruct (Ascii.eqb c' c); simpl; [discriminate | exact IH].
Qed.

Lemma split_once (c : ascii) (s : string) :
  count_char c s = 1 ->
  split c s = [fst (partition_first c s); snd (partition_first c s)].
Proof.
  induction s as [| c' s IH]; simpl; [discriminate |].
  destruct (Ascii.eqb c' c); simpl.
  - intros H. injection H as H.
    now rewrite split_no_sep by (now apply count_char_zero).
  - intros H. rewrite IH by exact H.
    now destruct (partition_first c s).
Qed.

Lemma unpack2_once (item : string) :
  count_char "=" item = 1 ->
  unpack2 (split "=" item)
  = Return (fst (partition_first "=" item), snd (partition_first "=" item)).
Proof.
  intros H. now rewrite split_once.
Qed.

Lemma unpack2_no_sep (item : string) :
  contains_char "=" item = false -> unpack2 (split "=" item) = Raise ValueError.
Proof.
  intros H. now rewrite split_no_sep.
Qed.

Lemma unpack2_error (parts : list string) (e : exn) :
  unpack2 parts = Raise e -> e = ValueError.
Proof.
  destruct parts as [| a [| b [| c parts]]]; simpl; congruence.
Qed.

Lemma env_comprehension_pairs (items : list string) (acc : Attributes) :
  Forall (fun item => count_char "=" item = 1) items ->
  env_comprehension items acc
  = Return (fold_left (fun d kv => dict_setitem (fst kv) (snd kv) d)
              (map spec_pair items) acc).
Proof.
  intros H. revert acc.
  induction H as [| item items Hitem _ IH]; intros acc; simpl.
  - reflexivity.
  - rewrite unpack2_once by exact Hitem. simpl. rewrite IH.
    unfold spec_pair. now destruct (partition_first "=" item).
Qed.

Lemma env_comprehension_malformed (items : list string) (acc : Attributes)
  (item : string) :
  In item items -> contains_char "=" item = false ->
  env_comprehension items acc = Raise ValueError.
Proof.
  intros Hin Hbad. revert acc.
  induction items as [| item' items IH]; intros acc; simpl; [contradiction |].
  destruct (unpack2 (split "=" item')) as [kv | e] eqn:U; simpl.
  - destruct Hin as [-> | Hin].
    + rewrite unpack2_no_sep in U by exact Hbad. discriminate.
    + now apply IH.
  - now rewrite (unpack2_error _ _ U).
Qed.

(** Claim C4, as amended.  With the variable unset or empty, [detect]
    returns a resource with no attributes.  For a value each of whose
    comma-separated entries holds exactly one [=], it returns the resource
    of the pairs got by splitting the value on commas and each entry on its
    [=], both sides trimmed. *)
Theorem OTEL_detect_pairs :
  OTELResourceDetector_detect None = Return (Resource_init [])
  /\ OTELResourceDetector_detect (Some EmptyString) = Return (Resource_init [])
  /\ forall s,
      s <> EmptyString ->
      Forall (fun item => count_char "=" item = 1) (split "," s) ->
      OTELResourceDetector_detect (Some s)
      = Return (Resource_init (spec_env_map s)).
Proof.
  split; [reflexivity | split; [reflexivity |]].
  intros [| c s] Hne Hall; [contradiction |].
  unfold OTELResourceDetector_detect.
  now rewrite env_comprehension_pairs by exact Hall.
Qed.

Lemma OTEL_detect_pairs_witness :
  let s := " service.name = shop ,region=eu" in
  s <> EmptyString
  /\ Forall (fun item => count_char "=" item = 1) (split "," s)
  /\ OTELResourceDetector_detect (Some s)
     = Return (Resource_init
                 [("service.name", VStr "shop"); ("region", VStr "eu")]).
Proof.
  intros s.
  assert (Hne : s <> EmptyString) by discriminate.
  assert (Hall : Forall (fun item => count_char "=" item = 1) (split "," s))
    by (repeat constructor).
  split; [exact Hne | split; [exact Hall |]].
  exact (proj2 (proj2 OTEL_detect_pairs) s Hne Hall).
Defined.

(** Claim C4, as stated, fails: the entry [k=a=b] is split on both of its
    [=], the three parts cannot be unpacked into a key and a value, and
    [detect] raises where the claim has it return the pair of [k] and
    [a=b]. *)
Lemma OTEL_detect_value_with_equals :
  spec_env_map "k=a=b" = [("k", VStr "a=b")]
  /\ OTELResourceDetector_detect (Some "k=a=b") = Raise ValueError
  /\ OTELResourceDetector_detect (Some "k=a=b")
     <> Return (Resource_init (spec_env_map "k=a=b")).
Proof.
  split; [reflexivity | split; [reflexivity | discriminate]].
Qed.

(** Claim C5.  When the variable is not empty and one of its
    comma-separated entries holds no [=], [detect] raises: the call fails as
    a whole and returns no resource. *)
Theorem OTEL_detect_malformed (s item : string) :
  s <> EmptyString ->
  In item (split "," s) ->
  contains_char "=" item = false ->
  OTELResourceDetector_detect (Some s) = Raise ValueError.
Proof.
  intros Hne Hin Hbad. destruct s as [| c s]; [contradiction |].
  unfold OTELResourceDetector_detect.
  now rewrite (env_comprehension_malformed _ _ item Hin Hbad).
Qed.

Lemma OTEL_detect_malformed_witness :
  OTELResourceDetector_detect (Some "a=1,oops,b=2") = Raise ValueError.
Proof.
  apply (OTEL_detect_malformed "a=1,oops,b=2" "oops").
  - discriminate.
  - simpl. right. left. reflexivity.
  - reflexivity.
Defined.

(** ** get_aggregated_resources *)

Lemma observe_all_app (done : nat -> bool) (i : nat)
  (ds1 ds2 : list ResourceDetector) :
  observe_all done i (ds1 ++ ds2)
  = observe_all done i ds1 ++ observe_all done (i + List.length ds1) ds2.
Proof.
  revert i. induction ds1 as [| d ds1 IH]; intros i; simpl.
  - now rewrite Nat.add_0_r.
  - rewrite IH. simpl. now rewrite Nat.add_succ_r.
Qed.

Lemma observe_all_ext (done done' : nat -> bool) (i : nat)
  (ds : list ResourceDetector) :
  (forall j, i <= j < i + List.length ds -> done j = done' j) ->
  observe_all done i ds = observe_all done' i ds.
Proof.
  revert i. induction ds as [| d ds IH]; intros i H; simpl; [reflexivity |].
  f_equal.
  - unfold observe, submit. rewrite (H i) by (simpl; lia). reflexivity.
  - apply IH. intros j Hj. apply H. simpl. lia.
Qed.

Lemma observe_all_no_abort (done : nat -> bool) (i : nat)
  (ds : list ResourceDetector) :
  (forall j d, nth_error ds j = Some d ->
               aborting (observe done (i + j) d) = false) ->
  Forall (fun o => aborting o = false) (observe_all done i ds).
Proof.
  revert i. induction ds as [| d ds IH]; intros i H; simpl; constructor.
  - specialize (H 0 d eq_refl). now rewrite Nat.add_0_r in H.
  - apply IH. intros j d' Hj. specialize (H (S j) d' Hj).
    now rewrite Nat.add_succ_r in H.
Qed.

(** The loop over the futures is the loop over what is seen. *)
Lemma aggregate_observed (done : nat -> bool)
  (pre ds : list ResourceDetector) (final : Resource)
  (detected : option Resource) :
  aggregate (pre ++ ds) (submit_all done (List.length pre) ds)
    (List.length pre) final detected
  = fold_observed (observe_all done (List.length pre) ds) final detected.
Proof.
  revert pre final detected.
  induction ds as [| d ds IH]; intros pre final detected; [reflexivity |].
  assert (Hnth : nth_error (pre ++ d :: ds) (List.length pre) = Some d).
  { rewrite nth_error_app2 by lia. now rewrite Nat.sub_diag. }
  assert (Hstep : forall fin det,
             aggregate (pre ++ d :: ds)
               (submit_all done (S (List.length pre)) ds)
               (S (List.length pre)) fin det
             = fold_observed (observe_all done (S (List.length pre)) ds)
                 fin det).
  { intros fin det. specialize (IH (pre ++ [d]) fin det).
    rewrite <- app_assoc in IH. simpl in IH.
    rewrite length_app in IH. simpl in IH.
    now rewrite Nat.add_1_r in IH. }
  simpl. rewrite Hnth.
  destruct (Future_result (submit done (List.length pre) d)) as [r | ex].
  - apply Hstep.
  - destruct (is_Exception ex); [| reflexivity].
    destruct (raise_on_error d); [reflexivity | apply Hstep].
Qed.

Lemma get_aggregated_resources_observed (environ : option string)
  (done : nat -> bool) (ds : list ResourceDetector)
  (initial_resource : option Resource) :
  get_aggregated_resources environ done ds initial_resource
  = fold_observed (observe_all done 0 (OTELResourceDetector environ :: ds))
      (seed initial_resource) None.
Proof.
  unfold get_aggregated_resources.
  exact (aggregate_observed done [] (OTELResourceDetector environ :: ds)
           (seed initial_resource) None).
Qed.

Lemma fold_observed_no_abort (obs : list (bool * result Resource))
  (final : Resource) (detected : option Resource) :
  Forall (fun o => aborting o = false) obs ->
  fold_observed obs final detected
  = Return (fold_merge final (map contribution obs)).
Proof.
  intros H. revert final detected.
  induction H as [| [flag [r | ex]] obs Ho _ IH]; intros final detected;
    simpl; [reflexivity | apply IH |].
  unfold aborting in Ho. simpl in Ho.
  apply orb_false_iff in Ho. destruct Ho as [Hex Hflag].
  apply negb_false_iff in Hex. rewrite Hex. simpl in Hflag. rewrite Hflag.
  apply IH.
Qed.

(** After a detector that does not end the aggregation, the loop goes on
    with its contribution merged and [detected_resources] bound. *)
Lemma fold_observed_step (o : bool * result Resource)
  (obs : list (bool * result Resource)) (final : Resource)
  (detected : option Resource) :
  aborting o = false ->
  fold_observed (o :: obs) final detected
  = fold_observed obs (merge final (contribution o)) (Some (contribution o)).
Proof.
  destruct o as [flag [r | ex]]; unfold aborting, contribution; simpl;
    [reflexivity |].
  intros Ho. apply orb_false_iff in Ho. destruct Ho as [Hex Hflag].
  apply negb_false_iff in Hex. now rewrite Hex, Hflag.
Qed.

Lemma fold_observed_abort (flag : bool) (ex : exn)
  (obs : list (bool * result Resource)) (final bound : Resource) :
  aborting (flag, Raise ex) = true ->
  fold_observed ((flag, Raise ex) :: obs) final (Some bound) = Raise ex.
Proof.
  unfold aborting. simpl. intros H.
  destruct (is_Exception ex); [| reflexivity].
  simpl in H. now rewrite H.
Qed.

Lemma fold_observed_prefix (obs1 obs2 : list (bool * result Resource))
  (final bound : Resource) :
  Forall (fun o => aborting o = false) obs1 ->
  exists bound',
    fold_observed (obs1 ++ obs2) final (Some bound)
    = fold_observed obs2 (fold_merge final (map contribution obs1))
        (Some bound').
Proof.
  intros H. revert final bound.
  induction H as [| o obs1 Ho _ IH]; intros final bound.
  - now exists bound.
  - change ((o :: obs1) ++ obs2) with (o :: (obs1 ++ obs2)).
    rewrite fold_observed_step by exact Ho.
    destruct (IH (merge final (contribution o)) (contribution o)) as [b Hb].
    exists b. exact Hb.
Qed.

Lemma fold_observed_raises (obs : list (bool * result Resource))
  (final bound : Resource) :
  Exists (fun o => aborting o = true) obs ->
  raises (fold_observed obs final (Some bound)) = true.
Proof.
  intros H. revert final bound.
  induction obs as [| o obs IH]; intros final bound.
  - inversion H.
  - destruct (aborting o) eqn:Ho.
    + destruct o as [flag [r | ex]]; [discriminate |].
      now rewrite fold_observed_abort.
    + rewrite fold_observed_step by exact Ho. apply IH.
      inversion H as [? ? Habs | ? ? Htl]; subst; [congruence | exact Htl].
Qed.

(** The environment detector never ends the aggregation: its flag is off
    and it raises nothing but [ValueError]. *)
Lemma env_comprehension_error (items : list string) (acc : Attributes)
  (e : exn) :
  env_comprehension items acc = Raise e -> e = ValueError.
Proof.
  revert acc. induction items as [| item items IH]; intros acc; simpl.
  - discriminate.
  - destruct (unpack2 (split "=" item)) as [kv | e'] eqn:U; simpl.
    + apply IH.
    + intros [= <-]. exact (unpack2_error _ _ U).
Qed.

Lemma OTEL_detect_error (environ : option string) (e : exn) :
  OTELResourceDetector_detect environ = Raise e -> e = ValueError.
Proof.
  destruct environ as [[| c s] |]; try discriminate.
  unfold OTELResourceDetector_detect.
  destruct (env_comprehension (split "," (String c s)) []) as [m | e']
    eqn:E; simpl; [discriminate |].
  intros [= <-]. exact (env_comprehension_error _ _ _ E).
Qed.

Lemma OTEL_not_aborting (environ : option string) (done : nat -> bool)
  (i : nat) :
  aborting (observe done i (OTELResourceDetector environ)) = false.
Proof.
  unfold aborting, observe, submit. simpl.
  destruct (done i); simpl; [| reflexivity].
  destruct (OTELResourceDetector_detect environ) as [r | e] eqn:E;
    [reflexivity |].
  now rewrite (OTEL_detect_error _ _ E).
Qed.

Lemma env_comprehension_wf (items : list string) (acc m : Attributes) :
  dict_wf acc -> env_comprehension items acc = Return m -> dict_wf m.
Proof.
  revert acc. induction items as [| item items IH]; intros acc Hacc; simpl.
  - now intros [= <-].
  - destruct (unpack2 (split "=" item)) as [kv | e]; simpl; [| discriminate].
    apply IH. now apply dict_wf_setitem.
Qed.

Lemma OTEL_detect_wf (environ : option string) (r : Resource) :
  OTELResourceDetector_detect environ = Return r -> dict_wf (_attributes r).
Proof.
  assert (Hnil : dict_wf []) by constructor.
  destruct environ as [[| c s] |]; try (now intros [= <-]).
  unfold OTELResourceDetector_detect.
  destruct (env_comprehension (split "," (String c s)) []) as [m | e] eqn:E;
    simpl; [| discriminate].
  intros [= <-]. exact (env_comprehension_wf _ _ _ Hnil E).
Qed.

Lemma observe_all_returns (done : nat -> bool) (i : nat)
  (ds : list ResourceDetector) (rs : list Resource) :
  Forall2 (fun d r => detect d = Return r) ds rs ->
  (forall j, i <= j < i + List.length ds -> done j = true) ->
  Forall (fun o => aborting o = false) (observe_all done i ds)
  /\ map contribution (observe_all done i ds) = rs.
Proof.
  intros H. revert i.
  induction H as [| d r ds rs Hd _ IH]; intros i Hdone; simpl.
  - split; [constructor | reflexivity].
  - destruct (IH (S i)) as [Hno Hmap].
    { intros j Hj. apply Hdone. simpl. lia. }
    assert (Ho : observe done i d = (raise_on_error d, Return r)).
    { unfold observe, submit. rewrite (Hdone i) by (simpl; lia).
      simpl. now rewrite Hd. }
    rewrite Ho. split.
    + constructor; [reflexivity | exact Hno].
    + simpl. unfold contribution at 1. simpl. now rewrite Hmap.
Qed.

(** Claim C2.  When the environment detector and every detector of the list
    return, each within the wait for it, [get_aggregated_resources] returns
    the fold that starts from the initial resource, or from the empty one
    when there is none, and merges the environment detector's resource and
    then those of the list in the caller's order.  With no detector and no
    initial resource the result is the empty resource merged with what the
    environment detector returns, which is that resource itself: no default
    attribute is added. *)
Theorem aggregation_sequential_fold :
  (forall environ done ds rs r0 initial_resource,
      OTELResourceDetector_detect environ = Return r0 ->
      Forall2 (fun d r => detect d = Return r) ds rs ->
      (forall i, i <= List.length ds -> done i = true) ->
      get_aggregated_resources environ done ds initial_resource
      = Return (fold_merge (seed initial_resource) (r0 :: rs)))
  /\ (forall environ done r0,
         OTELResourceDetector_detect environ = Return r0 ->
         done 0 = true ->
         get_aggregated_resources environ done [] None
         = Return (merge create_empty r0)
         /\ merge create_empty r0 = r0).
Proof.
  assert (Hfold : forall environ done ds rs r0 initial_resource,
             OTELResourceDetector_detect environ = Return r0 ->
             Forall2 (fun d r => detect d = Return r) ds rs ->
             (forall i, i <= List.length ds -> done i = true) ->
             get_aggregated_resources environ done ds initial_resource
             = Return (fold_merge (seed initial_resource) (r0 :: rs))).
  { intros environ done ds rs r0 initial_resource H0 Hds Hdone.
    rewrite get_aggregated_resources_observed.
    destruct (observe_all_returns done 0
                (OTELResourceDetector environ :: ds) (r0 :: rs))
      as [Hno Hmap].
    - constructor; [exact H0 | exact Hds].
    - intros j Hj. apply Hdone. simpl in Hj. lia.
    - rewrite fold_observed_no_abort by exact Hno. now rewrite Hmap. }
  split; [exact Hfold |].
  intros environ done r0 H0 Hdone. split.
  - rewrite (Hfold environ done [] [] r0 None H0).
    + reflexivity.
    + constructor.
    + intros i Hi. simpl in Hi. now replace i with 0 by lia.
  - apply merge_empty_l. exact (OTEL_detect_wf _ _ H0).
Qed.

Lemma aggregation_sequential_fold_witness :
  let D1 := mkDetector false (Return (Resource_init [("a", VStr "1")])) in
  let D2 := mkDetector false
              (Return (Resource_init [("a", VStr "2"); ("b", VStr "3")])) in
  get_aggregated_resources None (fun _ => true) [D1; D2] None
  = Return (Resource_init [("a", VStr "1"); ("b", VStr "3")]).
Proof.
  intros D1 D2.
  refine (proj1 aggregation_sequential_fold None (fun _ => true) [D1; D2]
            [Resource_init [("a", VStr "1")];
             Resource_init [("a", VStr "2"); ("b", VStr "3")]]
            (Resource_init []) None _ _ _).
  - reflexivity.
  - repeat constructor.
  - reflexivity.
Defined.

(** Claim C6, as amended.  When a detector of the list has its flag on and
    the wait on its future raises, by an error of [detect] or by the
    timeout, [get_aggregated_resources] raises and returns no resource; and
    the exception it raises is that very one when no detector before it in
    the list has ended the aggregation already. *)
Theorem aggregation_fatal_failure (environ : option string)
  (done : nat -> bool) (ds1 ds2 : list ResourceDetector)
  (d : ResourceDetector) (initial_resource : option Resource) (ex : exn) :
  raise_on_error d = true ->
  Future_result (submit done (S (List.length ds1)) d) = Raise ex ->
  raises (get_aggregated_resources environ done (ds1 ++ d :: ds2)
            initial_resource) = true
  /\ ((forall j d', nth_error ds1 j = Some d' ->
                    aborting (observe done (S j) d') = false) ->
      get_aggregated_resources environ done (ds1 ++ d :: ds2)
        initial_resource = Raise ex).
Proof.
  intros Hflag Hex.
  rewrite get_aggregated_resources_observed. simpl observe_all.
  rewrite fold_observed_step by apply OTEL_not_aborting.
  rewrite observe_all_app. simpl observe_all.
  assert (Hd : observe done (S (List.length ds1)) d = (true, Raise ex)).
  { unfold observe. now rewrite Hflag, Hex. }
  rewrite Hd.
  assert (Habort : aborting (true, Raise ex) = true).
  { unfold aborting. simpl. apply orb_true_r. }
  split.
  - apply fold_observed_raises. apply Exists_app. right.
    now constructor.
  - intros Hno.
    destruct (fold_observed_prefix (observe_all done 1 ds1)
                ((true, Raise ex)
                 :: observe_all done (S (S (List.length ds1))) ds2)
                (merge (seed initial_resource)
                   (contribution
                      (observe done 0 (OTELResourceDetector environ))))
                (contribution (observe done 0 (OTELResourceDetector environ))))
      as [bound Hpre].
    + now apply observe_all_no_abort.
    + rewrite Hpre. now apply fold_observed_abort.
Qed.

Lemma aggregation_fatal_failure_witness :
  let D1 := mkDetector false (Return (Resource_init [("a", VStr "1")])) in
  let D2 := mkDetector true (Raise (Exception_ "ConnectionError")) in
  get_aggregated_resources None (fun _ => true) ([D1] ++ D2 :: []) None
  = Raise (Exception_ "ConnectionError").
Proof.
  intros D1 D2.
  refine (proj2 (aggregation_fatal_failure None (fun _ => true) [D1] [] D2
                   None (Exception_ "ConnectionError") _ _) _).
  - reflexivity.
  - reflexivity.
  - intros [| [| j]] d' Hj; simpl in Hj; try discriminate.
    injection Hj as <-. reflexivity.
Defined.

(** Claim C6, as stated, fails: of two detectors with their flags on that
    both raise, the second raises its error as the claim supposes, yet the
    call raises the error of the first, which ended the aggregation before
    the second was looked at. *)
Lemma aggregation_fatal_failure_first_error :
  let D1 := mkDetector true (Raise (Exception_ "E1")) in
  let D2 := mkDetector true (Raise (Exception_ "E2")) in
  raise_on_error D2 = true
  /\ Future_result (submit (fun _ => true) 2 D2) = Raise (Exception_ "E2")
  /\ get_aggregated_resources None (fun _ => true) [D1; D2] None
     = Raise (Exception_ "E1")
  /\ get_aggregated_resources None (fun _ => true) [D1; D2] None
     <> Raise (Exception_ "E2").
Proof.
  intros D1 D2. repeat split; try reflexivity. discriminate.
Qed.

(** A contained failure is seen by the loop as the return of the empty
    resource is. *)
Lemma fold_observed_contained (obs1 obs2 : list (bool * result Resource))
  (ex : exn) (final : Resource) (detected : option Resource) :
  is_Exception ex = true ->
  fold_observed (obs1 ++ (false, Raise ex) :: obs2) final detected
  = fold_observed (obs1 ++ (false, Return _EMPTY_RESOURCE) :: obs2)
      final detected.
Proof.
  intros Hex. revert final detected.
  induction obs1 as [| [flag [r | e]] obs1 IH]; intros final detected; simpl.
  - now rewrite Hex.
  - apply IH.
  - destruct (is_Exception e); [| reflexivity].
    destruct flag; [reflexivity | apply IH].
Qed.

(** Claim C7, as amended.  When a detector of the list has its flag off and
    the wait on its future raises an exception deriving from [Exception],
    by [detect] or by the timeout, [get_aggregated_resources] ends as it
    would had that detector returned the empty resource in time, every
    other detector being seen as before; and when no detector ends the
    aggregation, it returns a resource: the fold of the contributions, the
    failing detector's being empty. *)
Theorem aggregation_contained_failure (environ : option string)
  (done : nat -> bool) (ds1 ds2 : list ResourceDetector)
  (d : ResourceDetector) (initial_resource : option Resource) (ex : exn) :
  raise_on_error d = false ->
  Future_result (submit done (S (List.length ds1)) d) = Raise ex ->
  is_Exception ex = true ->
  let done' := fun j => Nat.eqb j (S (List.length ds1)) || done j in
  get_aggregated_resources environ done (ds1 ++ d :: ds2) initial_resource
  = get_aggregated_resources environ done' (ds1 ++ quiet_detector :: ds2)
      initial_resource
  /\ contribution (observe done (S (List.length ds1)) d) = _EMPTY_RESOURCE
  /\ ((forall j d', nth_error (ds1 ++ d :: ds2) j = Some d' ->
                    aborting (observe done (S j) d') = false) ->
      get_aggregated_resources environ done (ds1 ++ d :: ds2)
        initial_resource
      = Return
          (fold_merge (seed initial_resource)
             (map contribution
                (observe_all done 0
                   (OTELResourceDetector environ :: ds1 ++ d :: ds2))))).
Proof.
  intros Hflag Hex Hexn done'.
  assert (Hd : observe done (S (List.length ds1)) d = (false, Raise ex)).
  { unfold observe. now rewrite Hflag, Hex. }
  split; [| split].
  - rewrite !get_aggregated_resources_observed.
    change (OTELResourceDetector environ :: ds1 ++ d :: ds2)
      with ((OTELResourceDetector environ :: ds1) ++ d :: ds2).
    change (OTELResourceDetector environ :: ds1 ++ quiet_detector :: ds2)
      with ((OTELResourceDetector environ :: ds1) ++ quiet_detector :: ds2).
    rewrite !observe_all_app.
    assert (Hpre : observe_all done 0 (OTELResourceDetector environ :: ds1)
                   = observe_all done' 0 (OTELResourceDetector environ :: ds1)).
    { apply observe_all_ext. intros j Hj. unfold done'. simpl in Hj.
      assert (Hne : Nat.eqb j (S (List.length ds1)) = false)
        by (apply Nat.eqb_neq; lia).
      now rewrite Hne. }
    assert (Hsuf : observe_all done (S (S (List.length ds1))) ds2
                   = observe_all done' (S (S (List.length ds1))) ds2).
    { apply observe_all_ext. intros j Hj. unfold done'.
      assert (Hne : Nat.eqb j (S (List.length ds1)) = false)
        by (apply Nat.eqb_neq; lia).
      now rewrite Hne. }
    assert (Hq : observe done' (S (List.length ds1)) quiet_detector
                 = (false, Return _EMPTY_RESOURCE)).
    { unfold observe, submit, done'. now rewrite Nat.eqb_refl. }
    rewrite <- Hpre.
    change (0 + List.length (OTELResourceDetector environ :: ds1))
      with (S (List.length ds1)).
    change (observe_all done (S (List.length ds1)) (d :: ds2))
      with (observe done (S (List.length ds1)) d
            :: observe_all done (S (S (List.length ds1))) ds2).
    change (observe_all done' (S (List.length ds1)) (quiet_detector :: ds2))
      with (observe done' (S (List.length ds1)) quiet_detector
            :: observe_all done' (S (S (List.length ds1))) ds2).
    rewrite Hd, Hq, <- Hsuf.
    now apply fold_observed_contained.
  - now rewrite Hd.
  - intros Hno. rewrite get_aggregated_resources_observed.
    apply fold_observed_no_abort. simpl observe_all. constructor.
    + apply OTEL_not_aborting.
    + now apply observe_all_no_abort.
Qed.

Lemma aggregation_contained_failure_witness :
  let D1 := mkDetector false (Raise (Exception_ "ConnectionError")) in
  let D2 := mkDetector true (Return (Resource_init [("b", VStr "3")])) in
  get_aggregated_resources (Some "a=1") (fun _ => true) ([] ++ D1 :: [D2])
    None
  = get_aggregated_resources (Some "a=1")
      (fun j => Nat.eqb j 1 || true) ([] ++ quiet_detector :: [D2]) None.
Proof.
  intros D1 D2.
  refine (proj1 (aggregation_contained_failure (Some "a=1") (fun _ => true)
                   [] [D2] D1 None (Exception_ "ConnectionError") _ _ _)).
  - reflexivity.
  - reflexivity.
  - reflexivity.
Defined.

(** Claim C7, as stated, fails.  A detector with its flag off that raises
    [SystemExit], which does not derive from [Exception], is not caught by
    the [except] clause, and the call raises it; and a detector with its
    flag off that raises an error does not keep the call from raising when
    another detector, with its flag on, fails. *)
Lemma aggregation_contained_failure_may_raise :
  let D := mkDetector false (Raise (BaseException_ "SystemExit")) in
  let D1 := mkDetector false (Raise (Exception_ "E1")) in
  let D2 := mkDetector true (Raise (Exception_ "E2")) in
  (raise_on_error D = false
   /\ detect D = Raise (BaseException_ "SystemExit")
   /\ get_aggregated_resources None (fun _ => true) [D] None
      = Raise (BaseException_ "SystemExit"))
  /\ (raise_on_error D1 = false
      /\ detect D1 = Raise (Exception_ "E1")
      /\ get_aggregated_resources None (fun _ => true) [D1; D2] None
         = Raise (Exception_ "E2")).
Proof.
  intros D D1 D2. repeat split; reflexivity.
Qed.

(** ** Objects: copies and writes in place *)

Lemma content_app_old (a : Store.addr) (h ext : Store.heap) :
  a < List.length h -> Store.content a (h ++ ext) = Store.content a h.
Proof.
  intros Ha. unfold Store.content. now apply app_nth1.
Qed.

Lemma content_app_new (h : Store.heap) (d : Attributes) :
  Store.content (List.length h) (h ++ [d]) = d.
Proof.
  unfold Store.content. rewrite app_nth2 by lia. now rewrite Nat.sub_diag.
Qed.

Lemma length_update (a : Store.addr) (d : Attributes) (h : Store.heap) :
  List.length (Store.update a d h) = List.length h.
Proof.
  revert a. induction h as [| d' h IH]; intros [| a]; simpl; auto.
Qed.

Lemma content_update_same (a : Store.addr) (d : Attributes) (h : Store.heap) :
  a < List.length h -> Store.content a (Store.update a d h) = d.
Proof.
  unfold Store.content. revert a.
  induction h as [| d' h IH]; intros [| a]; simpl; intros Ha;
    try lia; [reflexivity |].
  apply IH. lia.
Qed.

Lemma content_update_other (a b : Store.addr) (d : Attributes)
  (h : Store.heap) :
  a <> b -> Store.content b (Store.update a d h) = Store.content b h.
Proof.
  unfold Store.content. revert a b.
  induction h as [| d' h IH]; intros [| a] [| b] Hne; simpl;
    try reflexivity; try congruence.
  apply IH. congruence.
Qed.

Lemma copy_spec (a : Store.addr) (h : Store.heap) :
  Store.copy a h = (List.length h, h ++ [Store.content a h]).
Proof. reflexivity. Qed.

Lemma setitem_spec (a : Store.addr) (k : string) (v : LabelValue)
  (h : Store.heap) :
  Store.setitem a k v h
  = (tt, Store.update a (dict_setitem k v (Store.content a h)) h).
Proof. reflexivity. Qed.

(** The loop of [merge] writes to [merged_attributes] only, and leaves
    there what the loop over values computes. *)
Lemma merge_loop_spec (m : Store.addr) (items : Attributes) (h : Store.heap) :
  m < List.length h ->
  let h' := snd (Store.merge_loop m items h) in
  List.length h' = List.length h
  /\ Store.content m h' = fold_left merge_step items (Store.content m h)
  /\ forall b, b <> m -> Store.content b h' = Store.content b h.
Proof.
  revert h. induction items as [| [k v] items IH]; intros h Hm; simpl.
  - auto.
  - unfold Store.bind, Store.merge_turn, Store.bind, Store.load. simpl.
    destruct (merge_test k (Store.content m h)) eqn:T.
    + rewrite setitem_spec.
      set (h1 := Store.update m (dict_setitem k v (Store.content m h)) h).
      assert (Hlen1 : List.length h1 = List.length h)
        by apply length_update.
      destruct (IH h1) as (Hlen & Hm' & Hothers); [lia |].
      split; [lia | split].
      * rewrite Hm'. unfold h1. now rewrite content_update_same.
      * intros b Hb. rewrite Hothers by exact Hb.
        unfold h1. apply content_update_other. congruence.
    + unfold Store.ret. apply IH. exact Hm.
Qed.

(** [merge] on objects: the objects of the store it starts from keep their
    items, the result is a new object, and it holds the merge of the two
    values. *)
Lemma store_merge_spec (self other : Store.ResourceObj) (h : Store.heap) :
  Store._attributes self < List.length h ->
  Store._attributes other < List.length h ->
  let (r, h') := Store.merge self other h in
  List.length h <= Store._attributes r
  /\ (forall b, b < List.length h ->
                Store.content b h' = Store.content b h)
  /\ Store.value_of r h'
     = merge (Store.value_of self h) (Store.value_of other h).
Proof.
  intros Hs Ho.
  unfold Store.merge, Store.bind, Store.attributes, Store.load,
    Store.Resource_init, Store.bind, Store.ret.
  rewrite copy_spec.
  set (h1 := h ++ [Store.content (Store._attributes self) h]).
  set (m := List.length h).
  assert (Hlen1 : List.length h1 = S m).
  { unfold h1, m. rewrite length_app. simpl. lia. }
  assert (Hitems : Store.content (Store._attributes other) h1
                   = Store.content (Store._attributes other) h)
    by (apply content_app_old; exact Ho).
  rewrite Hitems.
  destruct (merge_loop_spec m (Store.content (Store._attributes other) h) h1)
    as (Hlen2 & Hm & Hothers); [lia |].
  destruct (Store.merge_loop m (Store.content (Store._attributes other) h) h1)
    as [[] h2] eqn:E.
  simpl in Hlen2, Hm, Hothers.
  rewrite copy_spec. simpl.
  split; [lia | split].
  - intros b Hb. rewrite content_app_old by lia.
    rewrite Hothers by (unfold m; lia).
    unfold h1. now apply content_app_old.
  - unfold Store.value_of. simpl. rewrite content_app_new, Hm.
    unfold h1, m. now rewrite content_app_new.
Qed.

(** Claim C8.  In a store where [A] and [B] are resources, [A.merge(B)]
    leaves the attributes of [A] and of [B] as they were and gives a new
    object holding their merge; the dictionary the [attributes] accessor
    returns is a new object with the items of [A], and a write to it leaves
    [A] as it was; and the dictionary of a resource built by the constructor
    is a new object with the items of the dictionary passed, and a write to
    the dictionary passed leaves the resource as it was. *)
Theorem Resource_never_mutated (h : Store.heap) (A B : Store.ResourceObj) :
  Store._attributes A < List.length h ->
  Store._attributes B < List.length h ->
  (let (R, h') := Store.merge A B h in
   Store.value_of A h' = Store.value_of A h
   /\ Store.value_of B h' = Store.value_of B h
   /\ Store.value_of R h'
      = merge (Store.value_of A h) (Store.value_of B h))
  /\ (let (a, h1) := Store.attributes A h in
      a <> Store._attributes A
      /\ Store.content a h1 = attributes (Store.value_of A h)
      /\ Store.value_of A h1 = Store.value_of A h
      /\ forall k v,
          Store.value_of A (snd (Store.setitem a k v h1))
          = Store.value_of A h)
  /\ (forall src,
         src < List.length h ->
         let (R, h1) := Store.Resource_init src h in
         Store._attributes R <> src
         /\ Store.value_of R h1 = Resource_init (Store.content src h)
         /\ forall k v,
             Store.value_of R (snd (Store.setitem src k v h1))
             = Store.value_of R h1).
Proof.
  intros HA HB. split; [| split].
  - pose proof (store_merge_spec A B h HA HB) as H.
    destruct (Store.merge A B h) as [R h'].
    destruct H as (_ & Hold & Hval).
    unfold Store.value_of in *.
    rewrite !Hold by assumption. auto.
  - unfold Store.attributes. rewrite copy_spec.
    split; [lia | split; [| split]].
    + apply content_app_new.
    + unfold Store.value_of. now rewrite content_app_old.
    + intros k v. rewrite setitem_spec. simpl. unfold Store.value_of.
      rewrite content_update_other by lia.
      now rewrite content_app_old.
  - intros src Hsrc.
    unfold Store.Resource_init, Store.bind, Store.ret. rewrite copy_spec.
    unfold Store.value_of. simpl.
    split; [lia | split].
    + now rewrite content_app_new.
    + intros k v. f_equal. apply content_update_other. lia.
Qed.

Lemma Resource_never_mutated_witness :
  let h := [[("a", VStr EmptyString)]; [("a", VStr "1"); ("c", VStr "2")]] in
  let A := Store.mkObj 0 in
  let B := Store.mkObj 1 in
  Store._attributes A < List.length h
  /\ Store._attributes B < List.length h
  /\ let (R, h') := Store.merge A B h in
     Store.value_of A h' = Store.value_of A h
     /\ Store.value_of B h' = Store.value_of B h
     /\ Store.value_of R h'
        = merge (Store.value_of A h) (Store.value_of B h).
Proof.
  intros h A B.
  assert (HA : Store._attributes A < List.length h) by (simpl; lia).
  assert (HB : Store._attributes B < List.length h) by (simpl; lia).
  split; [exact HA | split; [exact HB |]].
  exact (proj1 (Resource_never_mutated h A B HA HB)).
Defined.

(** ** Equality and hash *)

Lemma string_leb_trans (a b c : string) :
  String.leb a b = true -> String.leb b c = true -> String.leb a c = true.
Proof.
  revert b c. induction a as [| x a IH]; intros [| y b] [| z c];
    unfold String.leb; simpl; try congruence.
  specialize (IH b c). unfold String.leb in IH.
  unfold Ascii.compare.
  destruct (N.compare_spec (N_of_ascii x) (N_of_ascii y)) as [Exy | Lxy | Gxy];
    destruct (N.compare_spec (N_of_ascii y) (N_of_ascii z))
      as [Eyz | Lyz | Gyz];
    destruct (N.compare_spec (N_of_ascii x) (N_of_ascii z))
      as [Exz | Lxz | Gxz];
    try congruence; try lia; auto.
Qed.

Lemma insert_item_perm (kv : string * LabelValue) (l : Attributes) :
  Permutation (insert_item kv l) (kv :: l).
Proof.
  induction l as [| kv' l IH]; simpl; [reflexivity |].
  destruct (String.leb (fst kv) (fst kv')); [reflexivity |].
  rewrite IH. apply perm_swap.
Qed.

Lemma sorted_items_perm (d : Attributes) : Permutation (sorted_items d) d.
Proof.
  induction d as [| kv d IH]; simpl; [reflexivity |].
  rewrite insert_item_perm. now constructor.
Qed.

Lemma insert_item_sorted (kv : string * LabelValue) (l : Attributes) :
  StronglySorted key_le l -> StronglySorted key_le (insert_item kv l).
Proof.
  induction 1 as [| kv' l Hsorted IH Hall]; simpl.
  - repeat constructor.
  - destruct (String.leb (fst kv) (fst kv')) eqn:E.
    + constructor; [now constructor |].
      constructor; [exact E |].
      eapply Forall_impl; [| exact Hall].
      intros x Hx. unfold key_le in *. eapply string_leb_trans; eassumption.
    + constructor; [exact IH |].
      assert (Hle : key_le kv' kv).
      { unfold key_le.
        destruct (String.leb_total (fst kv) (fst kv')); congruence. }
      eapply Permutation_Forall; [symmetry; apply insert_item_perm |].
      now constructor.
Qed.

Lemma sorted_items_sorted (d : Attributes) :
  StronglySorted key_le (sorted_items d).
Proof.
  induction d as [| kv d IH]; simpl; [constructor |].
  now apply insert_item_sorted.
Qed.

Lemma dict_wf_perm (a b : Attributes) :
  Permutation a b -> dict_wf a -> dict_wf b.
Proof.
  unfold dict_wf, keys. intros Hp.
  apply Permutation_NoDup. now apply Permutation_map.
Qed.

Lemma dict_wf_same_key (d : Attributes) (x y : string * LabelValue) :
  dict_wf d -> In x d -> In y d -> fst x = fst y -> x = y.
Proof.
  destruct x as [k v], y as [k' w]. simpl. intros Hwf Hx Hy <-.
  apply (dict_get_of_In _ _ _ Hwf) in Hx.
  apply (dict_get_of_In _ _ _ Hwf) in Hy. congruence.
Qed.

(** Two sorted lists with the same items, no key twice, are one list. *)
Lemma sorted_unique (l1 l2 : Attributes) :
  StronglySorted key_le l1 -> StronglySorted key_le l2 ->
  dict_wf l1 -> Permutation l1 l2 -> l1 = l2.
Proof.
  intros H1. revert l2.
  induction H1 as [| x l1 Hs1 IH Hall1]; intros l2 H2 Hwf Hp.
  - apply Permutation_nil in Hp. now subst.
  - destruct H2 as [| y l2 Hs2 Hall2].
    + apply Permutation_sym, Permutation_nil in Hp. discriminate.
    + assert (Hwf2 : dict_wf (y :: l2)) by exact (dict_wf_perm _ _ Hp Hwf).
      assert (Hxy : x = y).
      { assert (Hx : In x (y :: l2))
          by (eapply Permutation_in; [exact Hp | now left]).
        assert (Hy : In y (x :: l1))
          by (eapply Permutation_in; [symmetry; exact Hp | now left]).
        destruct Hx as [-> | Hx]; [reflexivity |].
        destruct Hy as [-> | Hy]; [reflexivity |].
        apply (dict_wf_same_key (y :: l2)); simpl; auto.
        rewrite Forall_forall in Hall1, Hall2.
        apply String.leb_antisym; [apply (Hall1 y Hy) | apply (Hall2 x Hx)]. }
      subst y. f_equal. apply IH; [exact Hs2 | |].
      * unfold dict_wf in *. simpl in Hwf. now inversion Hwf.
      * eapply Permutation_cons_inv. exact Hp.
Qed.

(** The serialization does not depend on the order of insertion. *)
Lemma dumps_sort_keys_perm (a b : Attributes) :
  dict_wf a -> Permutation a b -> dumps_sort_keys a = dumps_sort_keys b.
Proof.
  intros Hwf Hp. unfold dumps_sort_keys.
  assert (Hs : sorted_items a = sorted_items b).
  { apply sorted_unique; try apply sorted_items_sorted.
    - eapply dict_wf_perm; [symmetry; apply sorted_items_perm | exact Hwf].
    - rewrite !sorted_items_perm. exact Hp. }
  now rewrite Hs.
Qed.

(** [==] does not depend on the order of insertion. *)
Lemma dict_eq_perm (a b : Attributes) :
  dict_wf a -> Permutation a b -> dict_eq a b = true.
Proof.
  intros Hwf Hp. unfold dict_eq.
  rewrite (Permutation_length Hp), Nat.eqb_refl. simpl.
  apply forallb_forall. intros [k v] Hin. simpl.
  assert (Hb : In (k, v) b) by (eapply Permutation_in; eassumption).
  rewrite (dict_get_of_In k v b (dict_wf_perm _ _ Hp Hwf) Hb).
  apply value_eq_refl.
Qed.

(** [==] on dictionaries holds exactly when the keys are the same and the
    values are equal key by key. *)
Lemma dict_eq_same_items (a b : Attributes) :
  dict_wf a -> dict_wf b -> (dict_eq a b = true <-> same_items a b).
Proof.
  intros Ha Hb. unfold dict_eq. rewrite andb_true_iff, Nat.eqb_eq.
  rewrite forallb_forall. split.
  - intros [Hlen Hall].
    assert (Hincl : incl (keys a) (keys b)).
    { intros k Hk. apply dict_get_In_keys in Hk. destruct Hk as [v Hv].
      apply dict_get_Some_In in Hv. specialize (Hall _ Hv). simpl in Hall.
      apply dict_get_In_keys.
      destruct (dict_get k b) as [w |]; [eauto | discriminate]. }
    assert (Hback : incl (keys b) (keys a)).
    { apply NoDup_length_incl; [exact Ha | | exact Hincl].
      unfold keys. rewrite !length_map. lia. }
    intros k. destruct (dict_get k a) as [v |] eqn:Ga.
    + apply dict_get_Some_In in Ga. specialize (Hall _ Ga). simpl in Hall.
      destruct (dict_get k b); [exact Hall | discriminate].
    + destruct (dict_get k b) as [w |] eqn:Gb; [| exact I].
      apply dict_get_None in Ga. apply Ga, Hback.
      apply dict_get_In_keys. eauto.
  - intros Hsame.
    assert (Hab : incl (keys a) (keys b)).
    { intros k Hk. apply dict_get_In_keys in Hk. destruct Hk as [v Hv].
      specialize (Hsame k). rewrite Hv in Hsame.
      apply dict_get_In_keys.
      destruct (dict_get k b) as [w |]; [eauto | contradiction]. }
    assert (Hba : incl (keys b) (keys a)).
    { intros k Hk. apply dict_get_In_keys in Hk. destruct Hk as [w Hw].
      specialize (Hsame k). rewrite Hw in Hsame.
      apply dict_get_In_keys.
      destruct (dict_get k a) as [v |]; [eauto | contradiction]. }
    split.
    + pose proof (NoDup_incl_length Ha Hab) as H1.
      pose proof (NoDup_incl_length Hb Hba) as H2.
      unfold keys in H1, H2. rewrite !length_map in H1, H2. lia.
    + intros [k v] Hin. simpl.
      apply (dict_get_of_In _ _ _ Ha) in Hin.
      specialize (Hsame k). rewrite Hin in Hsame.
      destruct (dict_get k b); [exact Hsame | contradiction].
Qed.

(** Property X13.  Resources with the same items, inserted in whatever
    order, are equal and have the same hash. *)
Lemma Resource_eq_hash_same_items (hash : string -> Z) (a b : Resource) :
  dict_wf (_attributes a) ->
  Permutation (_attributes a) (_attributes b) ->
  Resource_eq a b = true /\ Resource_hash hash a = Resource_hash hash b.
Proof.
  intros Hwf Hp. split.
  - now apply dict_eq_perm.
  - unfold Resource_hash. f_equal. now apply dumps_sort_keys_perm.
Qed.

Lemma Resource_eq_hash_same_items_witness :
  let a := Resource_init [("b", VInt 2); ("a", VStr "x"); ("c", VBool true)] in
  let b := Resource_init [("c", VBool true); ("b", VInt 2); ("a", VStr "x")] in
  Resource_eq a b = true
  /\ Resource_hash (fun s => Z.of_nat (String.length s)) a
     = Resource_hash (fun s => Z.of_nat (String.length s)) b.
Proof.
  intros a b.
  refine (Resource_eq_hash_same_items _ a b _ _).
  - unfold dict_wf. simpl. repeat constructor; simpl; intuition discriminate.
  - simpl. apply Permutation_sym.
    apply (Permutation_cons_app [("b", VInt 2); ("a", VStr "x")] []).
    rewrite app_nil_r. reflexivity.
Defined.

(** Claim C9 at the input where it fails.  The resources of [{"a": 1}] and
    of [{"a": True}] are equal, since [True == 1], but they are serialized
    to different strings, [1] against [true], so that their hashes are the
    hashes of two strings: no hash function is bound to give them the same
    value, and the length of the string, for one, tells them apart. *)
Theorem Resource_eq_without_equal_hash :
  let a := Resource_init [("a", VInt 1)] in
  let b := Resource_init [("a", VBool true)] in
  Resource_eq a b = true
  /\ dumps_sort_keys (_attributes a) <> dumps_sort_keys (_attributes b)
  /\ ~ (forall hash : string -> Z, Resource_hash hash a = Resource_hash hash b).
Proof.
  intros a b. split; [reflexivity | split].
  - discriminate.
  - intros H. specialize (H (fun s => Z.of_nat (String.length s))).
    discriminate H.
Qed.

(** * Further properties *)

(** ** The order of the keys of a merge, associativity, idempotence *)

Lemma dict_contains_setitem_other (k k' : string) (v : LabelValue)
  (d : Attributes) :
  k <> k' -> dict_contains k' (dict_setitem k v d) = dict_contains k' d.
Proof.
  intros Hne. unfold dict_contains. now rewrite dict_get_setitem_other.
Qed.

Lemma dict_contains_false (k : string) (d : Attributes) :
  dict_contains k d = false <-> ~ In k (keys d).
Proof.
  rewrite <- dict_contains_keys. destruct (dict_contains k d); split;
    congruence.
Qed.

Lemma merge_loop_key_order (items merged : Attributes) :
  dict_wf items ->
  keys (fold_left merge_step items merged)
  = keys merged
    ++ filter (fun k => negb (dict_contains k merged)) (keys items).
Proof.
  unfold dict_wf. revert merged.
  induction items as [| [k0 v0] items IH]; intros merged Hnd; simpl.
  - now rewrite app_nil_r.
  - inversion Hnd as [| ? ? Hnotin Hnd']; subst.
    rewrite IH by assumption.
    destruct (dict_contains k0 merged) eqn:C; simpl.
    + assert (Hkeys : keys (if merge_test k0 merged
                            then dict_setitem k0 v0 merged else merged)
                      = keys merged).
      { destruct (merge_test k0 merged); [| reflexivity].
        apply keys_setitem_present. now apply dict_contains_keys. }
      rewrite Hkeys. f_equal. apply filter_ext_in. intros k Hk.
      destruct (merge_test k0 merged); [| reflexivity].
      rewrite dict_contains_setitem_other; [reflexivity |].
      intros ->. contradiction.
    + assert (Habsent : ~ In k0 (keys merged))
        by (now apply dict_contains_false).
      rewrite merge_test_absent by (now apply dict_get_None).
      rewrite dict_setitem_new by exact Habsent.
      unfold keys at 1. rewrite map_app. simpl. rewrite <- app_assoc. simpl.
      do 2 f_equal. apply filter_ext_in. intros k Hk.
      rewrite <- (dict_setitem_new k0 v0 merged Habsent).
      rewrite dict_contains_setitem_other; [reflexivity |].
      intros ->. contradiction.
Qed.

(** Dictionaries with the same keys in the same order and the same value at
    every key are one dictionary. *)
Lemma dict_ext (a b : Attributes) :
  dict_wf a -> keys a = keys b ->
  (forall k, dict_get k a = dict_get k b) -> a = b.
Proof.
  unfold dict_wf. revert b.
  induction a as [| [k v] a IH]; intros [| [k' w] b] Hnd Hkeys Hget;
    try discriminate; [reflexivity |].
  simpl in Hkeys. injection Hkeys as <- Hkeys.
  inversion Hnd as [| ? ? Hnotin Hnd']; subst.
  pose proof (Hget k) as Hk. simpl in Hk. rewrite String.eqb_refl in Hk.
  injection Hk as <-. f_equal. apply IH; try assumption.
  intros k0. destruct (String.eqb_spec k k0) as [<- | Hne].
  - assert (Ha : dict_get k a = None) by (now apply dict_get_None).
    assert (Hb : dict_get k b = None)
      by (apply dict_get_None; now rewrite <- Hkeys).
    congruence.
  - specialize (Hget k0). simpl in Hget.
    apply String.eqb_neq in Hne. now rewrite Hne in Hget.
Qed.

Lemma merged_value_assoc (a b c : option LabelValue) :
  merged_value (merged_value a b) c = merged_value a (merged_value b c).
Proof.
  unfold merged_value.
  destruct a as [va |], b as [vb |], c as [vc |]; try reflexivity;
    destruct (value_eq va (VStr EmptyString)) eqn:Ea; try reflexivity;
    try rewrite Ea; try reflexivity;
    destruct (value_eq vb (VStr EmptyString)) eqn:Eb; try reflexivity;
    try rewrite Ea; reflexivity.
Qed.

Lemma merged_value_idem (a : option LabelValue) : merged_value a a = a.
Proof.
  destruct a as [v |]; simpl; [| reflexivity].
  now destruct (value_eq v (VStr EmptyString)).
Qed.

Lemma merge_wf (A B : Resource) :
  dict_wf (_attributes A) -> dict_wf (_attributes (merge A B)).
Proof.
  intros HA. rewrite merge_attributes. now apply merge_loop_wf.
Qed.

Lemma merge_get (A B : Resource) (k : string) :
  dict_wf (_attributes B) ->
  dict_get k (_attributes (merge A B))
  = merged_value (dict_get k (_attributes A)) (dict_get k (_attributes B)).
Proof.
  intros HB. rewrite merge_attributes. now apply merge_loop_get.
Qed.

Lemma merge_keys (A B : Resource) :
  dict_wf (_attributes B) ->
  keys (_attributes (merge A B))
  = keys (_attributes A)
    ++ filter (fun k => negb (dict_contains k (_attributes A)))
         (keys (_attributes B)).
Proof.
  intros HB. rewrite merge_attributes. now apply merge_loop_key_order.
Qed.

Lemma dict_contains_merge (A B : Resource) (k : string) :
  dict_contains k (_attributes (merge A B))
  = dict_contains k (_attributes A) || dict_contains k (_attributes B).
Proof.
  apply eq_true_iff_eq. rewrite orb_true_iff, !dict_contains_keys.
  rewrite merge_attributes. apply merge_loop_keys.
Qed.

Lemma filter_twice {X : Type} (p q r : X -> bool) (l : list X) :
  (forall x, p x = q x && r x) ->
  filter p l = filter r (filter q l).
Proof.
  intros H. induction l as [| x l IH]; simpl; [reflexivity |].
  rewrite H. destruct (q x); simpl; [| exact IH].
  destruct (r x); now rewrite IH.
Qed.

Lemma filter_none {X : Type} (p : X -> bool) (l : list X) :
  (forall x, In x l -> p x = false) -> filter p l = [].
Proof.
  induction l as [| x l IH]; simpl; intros H; [reflexivity |].
  rewrite (H x) by (now left). apply IH. intros y Hy. apply H. now right.
Qed.

(** Property X1.  The keys of [A.merge(B)] come in this order: the keys of
    [A] as [A] has them, then the keys of [B] that [A] does not have, as [B]
    has them. *)
Theorem merge_key_order (A B : Resource) :
  dict_wf (_attributes B) ->
  keys (attributes (merge A B))
  = keys (attributes A)
    ++ filter (fun k => negb (dict_contains k (attributes A)))
         (keys (attributes B)).
Proof.
  intros HB. unfold attributes, dict_copy. now apply merge_keys.
Qed.

Lemma merge_key_order_witness :
  let A := Resource_init [("b", VStr "x"); ("a", VStr EmptyString)] in
  let B := Resource_init [("c", VInt 3); ("a", VStr "1"); ("0", VBool true)] in
  keys (attributes (merge A B)) = ["b"; "a"; "c"; "0"].
Proof.
  intros A B.
  refine (merge_key_order A B _).
  unfold dict_wf. simpl. repeat constructor; simpl; intuition discriminate.
Defined.

Lemma merge_merge (A B C : Resource) :
  dict_wf (_attributes A) -> dict_wf (_attributes B) ->
  dict_wf (_attributes C) ->
  merge (merge A B) C = merge A (merge B C).
Proof.
  intros HA HB HC.
  assert (HBC : dict_wf (_attributes (merge B C))) by (now apply merge_wf).
  assert (HAB : dict_wf (_attributes (merge A B))) by (now apply merge_wf).
  assert (H : _attributes (merge (merge A B) C)
              = _attributes (merge A (merge B C))).
  { apply dict_ext.
    - now apply merge_wf.
    - rewrite !merge_keys by assumption.
      rewrite filter_app, <- app_assoc. do 2 f_equal.
      apply filter_twice. intros k.
      rewrite dict_contains_merge, negb_orb. apply andb_comm.
    - intros k. rewrite !merge_get by assumption.
      apply merged_value_assoc. }
  destruct (merge (merge A B) C), (merge A (merge B C)). simpl in H.
  now subst.
Qed.

(** Property X2.  [merge] is associative: [A.merge(B).merge(C)] and
    [A.merge(B.merge(C))] have the same items in the same order. *)
Theorem merge_assoc (A B C : Resource) :
  dict_wf (_attributes A) -> dict_wf (_attributes B) ->
  dict_wf (_attributes C) ->
  merge (merge A B) C = merge A (merge B C).
Proof.
  intros HA HB HC. now apply merge_merge.
Qed.

Lemma merge_assoc_witness :
  let A := Resource_init [("a", VStr EmptyString)] in
  let B := Resource_init [("a", VStr EmptyString); ("b", VStr "2")] in
  let C := Resource_init [("c", VStr "3"); ("a", VStr "1")] in
  merge (merge A B) C = merge A (merge B C).
Proof.
  intros A B C.
  refine (merge_assoc A B C _ _ _); unfold dict_wf; simpl;
    repeat constructor; simpl; intuition discriminate.
Defined.

(** Property X3.  [merge] is idempotent: [A.merge(A)] has the items of [A]
    in the order of [A]. *)
Theorem merge_idempotent (A : Resource) :
  dict_wf (_attributes A) -> merge A A = A.
Proof.
  intros HA.
  assert (H : _attributes (merge A A) = _attributes A).
  { apply dict_ext.
    - now apply merge_wf.
    - rewrite merge_keys by assumption.
      rewrite filter_none; [apply app_nil_r |].
      intros k Hk. apply negb_false_iff. now apply dict_contains_keys.
    - intros k. rewrite merge_get by assumption. apply merged_value_idem. }
  destruct (merge A A), A. simpl in H. now subst.
Qed.

Lemma merge_idempotent_witness :
  let A := Resource_init [("a", VStr EmptyString); ("b", VInt 2)] in
  merge A A = A.
Proof.
  intros A.
  refine (merge_idempotent A _). unfold dict_wf. simpl.
  repeat constructor; simpl; intuition discriminate.
Defined.

(** ** Aggregation: priorities, containment, the errors raised *)

Lemma merge_loop_keep (items merged : Attributes) (k : string)
  (v : LabelValue) :
  dict_get k merged = Some v -> v <> VStr EmptyString ->
  dict_get k (fold_left merge_step items merged) = Some v.
Proof.
  intros Hget Hv. revert merged Hget.
  induction items as [| [k0 v0] items IH]; intros merged Hget; simpl;
    [exact Hget |].
  apply IH. destruct (merge_test k0 merged) eqn:T; [| exact Hget].
  destruct (String.eqb_spec k0 k) as [-> | Hne].
  - rewrite (merge_test_present k v merged Hget) in T.
    apply value_eq_empty_str in T. contradiction.
  - now rewrite dict_get_setitem_other.
Qed.

Lemma merge_keep (A B : Resource) (k : string) (v : LabelValue) :
  dict_get k (_attributes A) = Some v -> v <> VStr EmptyString ->
  dict_get k (_attributes (merge A B)) = Some v.
Proof.
  intros Hget Hv. rewrite merge_attributes. now apply merge_loop_keep.
Qed.

Lemma fold_merge_keep (rs : list Resource) (final : Resource) (k : string)
  (v : LabelValue) :
  dict_get k (_attributes final) = Some v -> v <> VStr EmptyString ->
  dict_get k (_attributes (fold_merge final rs)) = Some v.
Proof.
  intros Hget Hv. revert final Hget.
  induction rs as [| r rs IH]; intros final Hget; simpl; [exact Hget |].
  apply IH. now apply merge_keep.
Qed.

Lemma fold_merge_absent (rs : list Resource) (final : Resource) (k : string) :
  ~ In k (keys (_attributes final)) ->
  Forall (fun r => ~ In k (keys (_attributes r))) rs ->
  ~ In k (keys (_attributes (fold_merge final rs))).
Proof.
  intros Hfinal Hrs. revert final Hfinal.
  induction Hrs as [| r rs Hr _ IH]; intros final Hfinal; simpl;
    [exact Hfinal |].
  apply IH. rewrite merge_attributes, merge_loop_keys. tauto.
Qed.

Lemma fold_merge_app (rs1 rs2 : list Resource) (final : Resource) :
  fold_merge final (rs1 ++ rs2) = fold_merge (fold_merge final rs1) rs2.
Proof. apply fold_left_app. Qed.

Lemma fold_observed_keep (obs : list (bool * result Resource))
  (final r : Resource) (detected : option Resource) (k : string)
  (v : LabelValue) :
  dict_get k (_attributes final) = Some v -> v <> VStr EmptyString ->
  fold_observed obs final detected = Return r ->
  dict_get k (_attributes r) = Some v.
Proof.
  intros Hget Hv. revert final detected Hget.
  induction obs as [| [flag [x | ex]] obs IH]; intros final detected Hget;
    simpl.
  - now intros [= <-].
  - apply IH. now apply merge_keep.
  - destruct (is_Exception ex).
    + destruct flag.
      * destruct detected; discriminate.
      * apply IH. now apply merge_keep.
    + destruct detected; discriminate.
Qed.

Lemma nth_error_observe_all (done : nat -> bool) (i j : nat)
  (ds : list ResourceDetector) :
  nth_error (observe_all done i ds) j
  = option_map (observe done (i + j)) (nth_error ds j).
Proof.
  revert i j. induction ds as [| d ds IH]; intros i [| j]; simpl;
    try reflexivity.
  - now rewrite Nat.add_0_r.
  - rewrite IH. now rewrite Nat.add_succ_r.
Qed.

Lemma fold_observed_raise_origin (obs : list (bool * result Resource))
  (final bound : Resource) (ex : exn) :
  fold_observed obs final (Some bound) = Raise ex ->
  exists j flag,
    nth_error obs j = Some (flag, Raise ex)
    /\ aborting (flag, Raise ex) = true.
Proof.
  revert final bound.
  induction obs as [| [flag [x | e]] obs IH]; intros final bound; simpl.
  - discriminate.
  - intros H. destruct (IH _ _ H) as (j & fl & Hj & Ha).
    exists (S j), fl. auto.
  - destruct (is_Exception e) eqn:E.
    + destruct flag.
      * intros [= ->]. exists 0, true. split; [reflexivity |].
        unfold aborting. simpl. apply orb_true_r.
      * intros H. destruct (IH _ _ H) as (j & fl & Hj & Ha).
        exists (S j), fl. auto.
    + intros [= ->]. exists 0, flag. split; [reflexivity |].
      unfold aborting. simpl. now rewrite E.
Qed.

Lemma contained_not_aborting (done : nat -> bool) (i : nat)
  (d : ResourceDetector) :
  raise_on_error d = false ->
  (forall e, detect d = Raise e -> is_Exception e = true) ->
  aborting (observe done i d) = false.
Proof.
  intros Hflag Herr. unfold aborting, observe, submit. rewrite Hflag. simpl.
  destruct (done i); simpl; [| reflexivity].
  destruct (detect d) as [r | e] eqn:E; [reflexivity |].
  rewrite (Herr e eq_refl). reflexivity.
Qed.

(** Property X4.  The initial resource has the highest priority: an
    attribute it holds with a value other than the empty string is in every
    resource [get_aggregated_resources] returns, with that value, whatever
    the environment and the detectors give. *)
Theorem aggregation_keeps_initial (environ : option string)
  (done : nat -> bool) (ds : list ResourceDetector) (initial r : Resource)
  (k : string) (v : LabelValue) :
  dict_get k (attributes initial) = Some v ->
  v <> VStr EmptyString ->
  get_aggregated_resources environ done ds (Some initial) = Return r ->
  dict_get k (attributes r) = Some v.
Proof.
  intros Hget Hv. rewrite get_aggregated_resources_observed.
  apply fold_observed_keep; assumption.
Qed.

Lemma aggregation_keeps_initial_witness :
  let initial := Resource_init [("service.name", VStr "shop")] in
  let D := mkDetector false (Return (Resource_init [("service.name",
                                                      VStr "other")])) in
  dict_get "service.name"
    (attributes (merge (merge initial (Resource_init
                                         [("service.name", VStr "env")]))
                   (Resource_init [("service.name", VStr "other")])))
  = Some (VStr "shop").
Proof.
  intros initial D.
  refine (aggregation_keeps_initial (Some "service.name=env") (fun _ => true)
            [D] initial _ "service.name" (VStr "shop") _ _ _).
  - reflexivity.
  - discriminate.
  - reflexivity.
Defined.

(** Property X5.  When every detector of the list has its flag off and
    raises nothing but exceptions deriving from [Exception],
    [get_aggregated_resources] does not raise, whatever the environment
    variable holds and whichever calls end in time: it returns the fold of
    the contributions. *)
Theorem aggregation_never_raises (environ : option string)
  (done : nat -> bool) (ds : list ResourceDetector)
  (initial_resource : option Resource) :
  Forall (fun d => raise_on_error d = false
                   /\ forall e, detect d = Raise e -> is_Exception e = true)
    ds ->
  get_aggregated_resources environ done ds initial_resource
  = Return
      (fold_merge (seed initial_resource)
         (map contribution
            (observe_all done 0 (OTELResourceDetector environ :: ds)))).
Proof.
  intros Hds. rewrite get_aggregated_resources_observed.
  apply fold_observed_no_abort. simpl observe_all. constructor.
  - apply OTEL_not_aborting.
  - apply observe_all_no_abort. intros j d Hj.
    rewrite Forall_forall in Hds.
    destruct (Hds d (nth_error_In _ _ Hj)) as [Hflag Herr].
    now apply contained_not_aborting.
Qed.

Lemma aggregation_never_raises_witness :
  let D1 := mkDetector false (Raise (Exception_ "ConnectionError")) in
  let D2 := mkDetector false (Return (Resource_init [("b", VStr "3")])) in
  get_aggregated_resources (Some "oops") (fun j => Nat.eqb j 1) [D1; D2] None
  = Return _EMPTY_RESOURCE.
Proof.
  intros D1 D2.
  refine (aggregation_never_raises (Some "oops") (fun j => Nat.eqb j 1)
            [D1; D2] None _).
  repeat constructor; simpl; intros e H; try discriminate.
  now injection H as <-.
Defined.

(** Property X6.  An exception raised by [get_aggregated_resources] is the
    one the wait on some detector of the list raised, that detector having
    its flag on or the exception not deriving from [Exception]: the
    [finally] clause never puts an error of its own in its place. *)
Theorem aggregation_raise_origin (environ : option string)
  (done : nat -> bool) (ds : list ResourceDetector)
  (initial_resource : option Resource) (ex : exn) :
  get_aggregated_resources environ done ds initial_resource = Raise ex ->
  exists j d,
    nth_error ds j = Some d
    /\ Future_result (submit done (S j) d) = Raise ex
    /\ (raise_on_error d = true \/ is_Exception ex = false).
Proof.
  rewrite get_aggregated_resources_observed. simpl observe_all.
  rewrite fold_observed_step by apply OTEL_not_aborting.
  intros H. apply fold_observed_raise_origin in H.
  destruct H as (j & flag & Hj & Ha).
  rewrite nth_error_observe_all in Hj.
  destruct (nth_error ds j) as [d |] eqn:Hd; [| discriminate].
  simpl in Hj. unfold observe in Hj. injection Hj as Hflag Hres.
  exists j, d. split; [exact Hd | split; [exact Hres |]].
  unfold aborting in Ha. simpl in Ha. apply orb_true_iff in Ha.
  destruct Ha as [Ha | Ha].
  - right. now apply negb_true_iff.
  - left. congruence.
Qed.

Lemma aggregation_raise_origin_witness :
  let D1 := mkDetector false (Return (Resource_init [("a", VStr "1")])) in
  let D2 := mkDetector true (Return (Resource_init [("b", VStr "2")])) in
  exists j d,
    nth_error [D1; D2] j = Some d
    /\ Future_result (submit (fun i => Nat.ltb i 2) (S j) d)
       = Raise TimeoutError
    /\ (raise_on_error d = true \/ is_Exception TimeoutError = false).
Proof.
  intros D1 D2.
  refine (aggregation_raise_origin None (fun i => Nat.ltb i 2) [D1; D2] None
            TimeoutError _).
  reflexivity.
Defined.

(** Property X7.  Within [get_aggregated_resources] a value of the
    environment variable that makes the environment detector raise counts
    as no value: the call ends as it does with the variable unset. *)
Theorem aggregation_ignores_malformed_environ (s : string) (e : exn)
  (done : nat -> bool) (ds : list ResourceDetector)
  (initial_resource : option Resource) :
  OTELResourceDetector_detect (Some s) = Raise e ->
  get_aggregated_resources (Some s) done ds initial_resource
  = get_aggregated_resources None done ds initial_resource.
Proof.
  intros He. rewrite !get_aggregated_resources_observed.
  simpl observe_all.
  rewrite !fold_observed_step by apply OTEL_not_aborting.
  assert (Hc : contribution (observe done 0 (OTELResourceDetector (Some s)))
               = contribution (observe done 0 (OTELResourceDetector None))).
  { unfold contribution, observe, submit.
    destruct (done 0); [| reflexivity].
    change (detect (OTELResourceDetector (Some s)))
      with (OTELResourceDetector_detect (Some s)).
    now rewrite He. }
  now rewrite Hc.
Qed.

Lemma aggregation_ignores_malformed_environ_witness :
  let D := mkDetector false (Return (Resource_init [("b", VStr "3")])) in
  get_aggregated_resources (Some "a=1,oops") (fun _ => true) [D] None
  = get_aggregated_resources None (fun _ => true) [D] None.
Proof.
  intros D.
  refine (aggregation_ignores_malformed_environ "a=1,oops" ValueError
            (fun _ => true) [D] None _).
  reflexivity.
Defined.

(** Property X8.  Among the sources of an aggregation in which every call
    returns in time, the first that has a key gives its value, when that
    value is not the empty string: if neither the initial resource, nor the
    environment detector's, nor those of the detectors before [d] have the
    key, the result holds the value of the resource of [d], whatever the
    detectors after [d] return. *)
Theorem aggregation_first_source_wins (environ : option string)
  (done : nat -> bool) (ds : list ResourceDetector)
  (rs1 rs2 : list Resource) (r0 r : Resource)
  (initial_resource : option Resource) (k : string) (v : LabelValue) :
  OTELResourceDetector_detect environ = Return r0 ->
  Forall2 (fun d x => detect d = Return x) ds (rs1 ++ r :: rs2) ->
  (forall i, i <= List.length ds -> done i = true) ->
  dict_wf (_attributes r) ->
  dict_get k (attributes r) = Some v ->
  v <> VStr EmptyString ->
  ~ In k (keys (attributes (seed initial_resource))) ->
  Forall (fun x => ~ In k (keys (attributes x))) (r0 :: rs1) ->
  exists res,
    get_aggregated_resources environ done ds initial_resource = Return res
    /\ dict_get k (attributes res) = Some v.
Proof.
  intros H0 Hds Hdone Hwf Hget Hv Hseed Hbefore.
  rewrite get_aggregated_resources_observed.
  destruct (observe_all_returns done 0 (OTELResourceDetector environ :: ds)
              (r0 :: rs1 ++ r :: rs2)) as [Hno Hmap].
  { constructor; [exact H0 | exact Hds]. }
  { intros j Hj. apply Hdone. simpl in Hj. lia. }
  rewrite fold_observed_no_abort by exact Hno. rewrite Hmap.
  eexists. split; [reflexivity |].
  change (r0 :: rs1 ++ r :: rs2) with ((r0 :: rs1) ++ r :: rs2).
  rewrite fold_merge_app.
  change (fold_merge (fold_merge (seed initial_resource) (r0 :: rs1))
            (r :: rs2))
    with (fold_merge
            (merge (fold_merge (seed initial_resource) (r0 :: rs1)) r) rs2).
  unfold attributes, dict_copy in *.
  apply fold_merge_keep; [| exact Hv].
  rewrite merge_get by exact Hwf.
  assert (Hnone : dict_get k
                    (_attributes
                       (fold_merge (seed initial_resource) (r0 :: rs1)))
                  = None).
  { apply dict_get_None. now apply fold_merge_absent. }
  rewrite Hnone, Hget. reflexivity.
Qed.

Lemma aggregation_first_source_wins_witness :
  let D1 := mkDetector false (Return (Resource_init [("a", VStr "1")])) in
  let D2 := mkDetector false
              (Return (Resource_init [("a", VStr "2"); ("b", VStr "3")])) in
  let D3 := mkDetector false (Return (Resource_init [("b", VStr "4")])) in
  exists res,
    get_aggregated_resources (Some "c=0") (fun _ => true) [D1; D2; D3] None
    = Return res
    /\ dict_get "b" (attributes res) = Some (VStr "3").
Proof.
  intros D1 D2 D3.
  refine (aggregation_first_source_wins (Some "c=0") (fun _ => true)
            [D1; D2; D3] [Resource_init [("a", VStr "1")]]
            [Resource_init [("b", VStr "4")]]
            (Resource_init [("c", VStr "0")])
            (Resource_init [("a", VStr "2"); ("b", VStr "3")])
            None "b" (VStr "3") _ _ _ _ _ _ _ _).
  - reflexivity.
  - repeat constructor.
  - reflexivity.
  - unfold dict_wf. simpl. repeat constructor; simpl; intuition discriminate.
  - reflexivity.
  - discriminate.
  - simpl. tauto.
  - repeat constructor; simpl; intuition discriminate.
Defined.

(** ** The environment detector: which values it takes, what it returns *)

Lemma split_length (c : ascii) (s : string) :
  List.length (split c s) = S (count_char c s).
Proof.
  induction s as [| c' s IH]; simpl; [reflexivity |].
  destruct (Ascii.eqb c' c); simpl.
  - now rewrite IH.
  - destruct (split c s) as [| w ws]; simpl in *; [discriminate | exact IH].
Qed.

Lemma unpack2_not_once (item : string) :
  count_char "=" item <> 1 -> unpack2 (split "=" item) = Raise ValueError.
Proof.
  intros H. pose proof (split_length "=" item) as Hlen.
  destruct (split "=" item) as [| a [| b [| c parts]]]; simpl in *;
    try reflexivity.
  exfalso. apply H. lia.
Qed.

Lemma env_comprehension_raise_iff (items : list string) (acc : Attributes) :
  env_comprehension items acc = Raise ValueError
  <-> Exists (fun item => count_char "=" item <> 1) items.
Proof.
  revert acc. induction items as [| item items IH]; intros acc; simpl.
  - split; [discriminate | intros H; inversion H].
  - destruct (Nat.eq_dec (count_char "=" item) 1) as [Hone | Hnot].
    + rewrite unpack2_once by exact Hone. simpl. rewrite IH.
      split; [now right |].
      intros H. inversion H as [? ? Hhd | ? ? Htl]; subst;
        [contradiction | exact Htl].
    + rewrite unpack2_not_once by exact Hnot. simpl.
      split; [now left | reflexivity].
Qed.

(** Property X9.  For a value of the variable that is not empty, [detect]
    raises [ValueError] exactly when one of the comma-separated entries does
    not hold one [=] and one only: an entry with none, an empty entry such
    as a trailing comma leaves, or an entry with two or more. *)
Theorem OTEL_detect_raises_iff (s : string) :
  s <> EmptyString ->
  (OTELResourceDetector_detect (Some s) = Raise ValueError
   <-> Exists (fun item => count_char "=" item <> 1) (split "," s)).
Proof.
  intros Hne. destruct s as [| c s]; [contradiction |].
  unfold OTELResourceDetector_detect.
  rewrite <- (env_comprehension_raise_iff _ []).
  destruct (env_comprehension (split "," (String c s)) []) as [m | e];
    simpl; split; intros H; try discriminate; now injection H as ->.
Qed.

Lemma OTEL_detect_raises_iff_witness :
  OTELResourceDetector_detect (Some "a=1,b=2,") = Raise ValueError
  <-> Exists (fun item => count_char "=" item <> 1) (split "," "a=1,b=2,").
Proof.
  refine (OTEL_detect_raises_iff "a=1,b=2," _). discriminate.
Defined.

Lemma fold_setitem_other (items : list (string * LabelValue))
  (acc : Attributes) (k : string) :
  Forall (fun kv => fst kv <> k) items ->
  dict_get k (fold_left (fun d kv => dict_setitem (fst kv) (snd kv) d)
                items acc)
  = dict_get k acc.
Proof.
  intros H. revert acc.
  induction H as [| kv items Hkv _ IH]; intros acc; simpl; [reflexivity |].
  rewrite IH. now apply dict_get_setitem_other.
Qed.

(** Property X10.  When a key comes more than once in the variable, the
    last entry with that key gives the value: for a value whose entries
    hold one [=] each, the resource [detect] returns has, at the trimmed key
    of an entry that no later entry repeats, the trimmed value of that
    entry. *)
Theorem OTEL_detect_last_entry_wins (s : string)
  (items1 items2 : list string) (item : string) :
  s <> EmptyString ->
  Forall (fun it => count_char "=" it = 1) (split "," s) ->
  split "," s = items1 ++ item :: items2 ->
  Forall (fun it => fst (spec_pair it) <> fst (spec_pair item)) items2 ->
  exists r,
    OTELResourceDetector_detect (Some s) = Return r
    /\ dict_get (strip (fst (partition_first "=" item))) (attributes r)
       = Some (VStr (strip (snd (partition_first "=" item)))).
Proof.
  intros Hne Hall Hsplit Hlater. destruct s as [| c s]; [contradiction |].
  unfold OTELResourceDetector_detect.
  rewrite env_comprehension_pairs by exact Hall. cbn [bind].
  eexists. split; [reflexivity |].
  unfold attributes, dict_copy, Resource_init, dict_copy. cbn [_attributes].
  rewrite Hsplit, map_app, fold_left_app. cbn [map fold_left].
  assert (Hpair : spec_pair item
                  = (strip (fst (partition_first "=" item)),
                     VStr (strip (snd (partition_first "=" item))))).
  { unfold spec_pair. now destruct (partition_first "=" item). }
  rewrite fold_setitem_other.
  - rewrite Hpair. simpl. apply dict_get_setitem_same.
  - rewrite Hpair in Hlater. simpl in Hlater.
    apply Forall_map. exact Hlater.
Qed.

Lemma OTEL_detect_last_entry_wins_witness :
  exists r,
    OTELResourceDetector_detect (Some "a=1,b=2, a = 3 ,c=4") = Return r
    /\ dict_get "a" (attributes r) = Some (VStr "3").
Proof.
  refine (OTEL_detect_last_entry_wins "a=1,b=2, a = 3 ,c=4"
            ["a=1"; "b=2"] ["c=4"] " a = 3 " _ _ _ _).
  - discriminate.
  - repeat constructor.
  - reflexivity.
  - repeat constructor. discriminate.
Defined.

Lemma lstrip_start (s : string) : starts_with_space (lstrip s) = false.
Proof.
  induction s as [| c s IH]; simpl; [reflexivity |].
  destruct (isspace c) eqn:E; [exact IH | simpl; exact E].
Qed.

Lemma rstrip_start (s : string) :
  starts_with_space s = false -> starts_with_space (rstrip s) = false.
Proof.
  destruct s as [| c s]; simpl; [reflexivity |].
  intros Hc. destruct (rstrip s); simpl; [now rewrite Hc | exact Hc].
Qed.

Lemma rstrip_end (s : string) : ends_with_space (rstrip s) = false.
Proof.
  induction s as [| c s IH]; simpl; [reflexivity |].
  destruct (rstrip s) as [| c' r] eqn:R.
  - destruct (isspace c) eqn:E; simpl; [reflexivity | exact E].
  - exact IH.
Qed.

Lemma strip_trimmed (s : string) : trimmed (strip s).
Proof.
  unfold trimmed, strip. split.
  - apply rstrip_start, lstrip_start.
  - apply rstrip_end.
Qed.

Lemma Forall_setitem (P : string * LabelValue -> Prop) (k : string)
  (v : LabelValue) (d : Attributes) :
  P (k, v) -> Forall P d -> Forall P (dict_setitem k v d).
Proof.
  intros Hkv Hd. induction Hd as [| [k' v'] d Hhd Hd IH]; simpl.
  - now constructor.
  - destruct (String.eqb_spec k' k) as [-> | Hne]; now constructor.
Qed.

Lemma env_comprehension_trimmed (items : list string) (acc m : Attributes) :
  Forall (fun kv => trimmed (fst kv)
                    /\ exists sv, snd kv = VStr sv /\ trimmed sv) acc ->
  env_comprehension items acc = Return m ->
  Forall (fun kv => trimmed (fst kv)
                    /\ exists sv, snd kv = VStr sv /\ trimmed sv) m.
Proof.
  revert acc. induction items as [| item items IH]; intros acc Hacc; simpl.
  - now intros [= <-].
  - destruct (unpack2 (split "=" item)) as [[key value] | e]; simpl;
      [| discriminate].
    apply IH. apply Forall_setitem; [| exact Hacc].
    simpl. split; [apply strip_trimmed |].
    eexists. split; [reflexivity | apply strip_trimmed].
Qed.

(** Property X11.  Every attribute of a resource [detect] returns has a key
    with no whitespace at either end and a value that is a string with no
    whitespace at either end. *)
Theorem OTEL_detect_trimmed_strings (environ : option string) (r : Resource)
  (k : string) (v : LabelValue) :
  OTELResourceDetector_detect environ = Return r ->
  In (k, v) (attributes r) ->
  trimmed k /\ exists sv, v = VStr sv /\ trimmed sv.
Proof.
  intros Hr Hin.
  assert (Hall : Forall (fun kv => trimmed (fst kv)
                                   /\ exists sv, snd kv = VStr sv
                                                 /\ trimmed sv)
                   (_attributes r)).
  { destruct environ as [[| c s] |];
      try (injection Hr as <-; constructor).
    unfold OTELResourceDetector_detect in Hr.
    destruct (env_comprehension (split "," (String c s)) []) as [m | e]
      eqn:E; simpl in Hr; [| discriminate].
    injection Hr as <-. simpl.
    eapply env_comprehension_trimmed; [| exact E]. constructor. }
  rewrite Forall_forall in Hall. exact (Hall (k, v) Hin).
Qed.

Lemma OTEL_detect_trimmed_strings_witness :
  trimmed "region" /\ exists sv, VStr "eu west" = VStr sv /\ trimmed sv.
Proof.
  refine (OTEL_detect_trimmed_strings (Some "a=1,  region =  eu west  ")
            (Resource_init [("a", VStr "1"); ("region", VStr "eu west")])
            "region" (VStr "eu west") _ _).
  - reflexivity.
  - simpl. right. left. reflexivity.
Defined.

Lemma split_app_sep (c : ascii) (w rest : string) :
  contains_char c w = false ->
  split c (w ++ String c rest) = w :: split c rest.
Proof.
  induction w as [| c' w IH]; simpl.
  - intros _. now rewrite Ascii.eqb_refl.
  - destruct (Ascii.eqb c' c); simpl; [discriminate |].
    intros H. now rewrite IH.
Qed.

Lemma split_join (c : ascii) (ws : list string) :
  ws <> [] ->
  Forall (fun w => contains_char c w = false) ws ->
  split c (join (String c EmptyString) ws) = ws.
Proof.
  intros Hne Hall. induction Hall as [| w ws Hw Hws IH]; [contradiction |].
  destruct ws as [| w' ws].
  - simpl. now apply split_no_sep.
  - change (join (String c EmptyString) (w :: w' :: ws))
      with (w ++ String c (join (String c EmptyString) (w' :: ws)))%string.
    rewrite split_app_sep by exact Hw. f_equal. apply IH. discriminate.
Qed.

Lemma contains_char_app (c : ascii) (a b : string) :
  contains_char c (a ++ b) = contains_char c a || contains_char c b.
Proof.
  induction a as [| c' a IH]; simpl; [reflexivity |].
  now rewrite IH, orb_assoc.
Qed.

Lemma count_char_none (c : ascii) (s : string) :
  contains_char c s = false -> count_char c s = 0.
Proof.
  induction s as [| c' s IH]; simpl; [reflexivity |].
  destruct (Ascii.eqb c' c); simpl; [discriminate | exact IH].
Qed.

Lemma count_char_app (c : ascii) (a b : string) :
  count_char c (a ++ b) = count_char c a + count_char c b.
Proof.
  induction a as [| c' a IH]; simpl; [reflexivity |].
  rewrite IH. lia.
Qed.

Lemma partition_first_app (c : ascii) (k v : string) :
  contains_char c k = false ->
  partition_first c (k ++ String c v) = (k, v).
Proof.
  induction k as [| c' k IH]; simpl.
  - intros _. now rewrite Ascii.eqb_refl.
  - destruct (Ascii.eqb c' c); simpl; [discriminate |].
    intros H. now rewrite IH.
Qed.

Lemma trimmed_lstrip (s : string) :
  starts_with_space s = false -> lstrip s = s.
Proof.
  destruct s as [| c s]; simpl; [reflexivity |]. now intros ->.
Qed.

Lemma trimmed_rstrip (s : string) :
  ends_with_space s = false -> rstrip s = s.
Proof.
  induction s as [| c s IH]; simpl; [reflexivity |].
  destruct s as [| c' s].
  - simpl. now intros ->.
  - intros H. rewrite IH by exact H. reflexivity.
Qed.

Lemma trimmed_strip (s : string) : trimmed s -> strip s = s.
Proof.
  intros [Hs He]. unfold strip.
  rewrite trimmed_lstrip by exact Hs. now apply trimmed_rstrip.
Qed.

Lemma fold_setitem_fresh (items acc : list (string * LabelValue)) :
  dict_wf (acc ++ items) ->
  fold_left (fun d kv => dict_setitem (fst kv) (snd kv) d) items acc
  = acc ++ items.
Proof.
  unfold dict_wf, keys. revert acc.
  induction items as [| [k v] items IH]; intros acc Hnd; simpl.
  - now rewrite app_nil_r.
  - assert (Hnotin : ~ In k (map fst acc)).
    { rewrite map_app in Hnd. simpl in Hnd.
      apply NoDup_remove_2 in Hnd. intros Hin. apply Hnd.
      apply in_or_app. now left. }
    rewrite dict_setitem_new by exact Hnotin.
    rewrite IH; rewrite <- app_assoc; simpl; [reflexivity | exact Hnd].
Qed.

Lemma format_pair_no_comma (kv : string * string) :
  contains_char "," (fst kv) = false -> contains_char "," (snd kv) = false ->
  contains_char "," (format_pair kv) = false.
Proof.
  intros Hk Hv. unfold format_pair.
  rewrite !contains_char_app, Hk, Hv. reflexivity.
Qed.

Lemma format_pair_one_equals (kv : string * string) :
  contains_char "=" (fst kv) = false -> contains_char "=" (snd kv) = false ->
  count_char "=" (format_pair kv) = 1.
Proof.
  intros Hk Hv. unfold format_pair.
  rewrite !count_char_app.
  rewrite (count_char_none _ _ Hk), (count_char_none _ _ Hv). reflexivity.
Qed.

Lemma spec_pair_format_pair (kv : string * string) :
  contains_char "=" (fst kv) = false ->
  trimmed (fst kv) -> trimmed (snd kv) ->
  spec_pair (format_pair kv) = (fst kv, VStr (snd kv)).
Proof.
  intros Hk Tk Tv. unfold spec_pair, format_pair.
  change ("=" ++ snd kv)%string with (String "=" (snd kv)).
  rewrite partition_first_app by exact Hk.
  now rewrite !trimmed_strip.
Qed.

(** Property X12.  The text of a list of pairs is read back as those pairs:
    when the keys are distinct and neither keys nor values hold a comma, an
    [=] or whitespace at an end, [detect], given the pairs written [k=v] and
    joined by commas, returns the resource of exactly those pairs, in their
    order. *)
Theorem OTEL_detect_format_roundtrip (kvs : list (string * string)) :
  Forall (fun kv =>
            (contains_char "," (fst kv) = false
             /\ contains_char "=" (fst kv) = false /\ trimmed (fst kv))
            /\ (contains_char "," (snd kv) = false
                /\ contains_char "=" (snd kv) = false /\ trimmed (snd kv)))
    kvs ->
  NoDup (map fst kvs) ->
  OTELResourceDetector_detect (Some (format_pairs kvs))
  = Return (Resource_init (map (fun kv => (fst kv, VStr (snd kv))) kvs)).
Proof.
  intros Hall Hnd. destruct kvs as [| kv0 kvs0]; [reflexivity |].
  set (kvs := kv0 :: kvs0) in *.
  assert (Hsplit : split "," (format_pairs kvs) = map format_pair kvs).
  { unfold format_pairs. apply split_join; [discriminate |].
    apply Forall_map. eapply Forall_impl; [| exact Hall].
    intros kv [(Hk & _) (Hv & _)]. now apply format_pair_no_comma. }
  assert (Hones : Forall (fun item => count_char "=" item = 1)
                    (map format_pair kvs)).
  { apply Forall_map. eapply Forall_impl; [| exact Hall].
    intros kv [(_ & Hk & _) (_ & Hv & _)]. now apply format_pair_one_equals. }
  assert (Hpairs : map spec_pair (map format_pair kvs)
                   = map (fun kv => (fst kv, VStr (snd kv))) kvs).
  { rewrite map_map. apply map_ext_in. intros kv Hin.
    rewrite Forall_forall in Hall.
    destruct (Hall kv Hin) as [(_ & Hk & Tk) (_ & _ & Tv)].
    now apply spec_pair_format_pair. }
  destruct (format_pairs kvs) as [| c s] eqn:Hs.
  - exfalso. simpl in Hsplit. injection Hsplit as Hempty _.
    unfold format_pair in Hempty. destruct (fst kv0); discriminate.
  - unfold OTELResourceDetector_detect.
    rewrite Hsplit, env_comprehension_pairs by exact Hones.
    cbn [bind]. rewrite Hpairs. do 2 f_equal.
    apply (fold_setitem_fresh _ []).
    unfold dict_wf, keys. cbn [app]. rewrite map_map. exact Hnd.
Qed.

Lemma OTEL_detect_format_roundtrip_witness :
  OTELResourceDetector_detect
    (Some (format_pairs [("service.name", "shop"); ("region", "eu west")]))
  = Return (Resource_init
              [("service.name", VStr "shop"); ("region", VStr "eu west")]).
Proof.
  refine (OTEL_detect_format_roundtrip
            [("service.name", "shop"); ("region", "eu west")] _ _).
  - repeat constructor.
  - repeat constructor; simpl; intuition discriminate.
Defined.

(** ** Equality of resources, and the hash *)

Lemma int_of_bool_inj (a b : bool) : int_of_bool a = int_of_bool b -> a = b.
Proof. destruct a, b; simpl; congruence. Qed.

Lemma value_eq_sym (v w : LabelValue) : value_eq v w = value_eq w v.
Proof.
  destruct v as [a | a | a], w as [b | b | b]; simpl; try reflexivity.
  - apply String.eqb_sym.
  - now destruct a, b.
  - apply Z.eqb_sym.
  - apply Z.eqb_sym.
  - apply Z.eqb_sym.
Qed.

Lemma value_eq_trans (u v w : LabelValue) :
  value_eq u v = true -> value_eq v w = true -> value_eq u w = true.
Proof.
  destruct u as [a | a | a], v as [b | b | b], w as [c | c | c]; simpl;
    try discriminate;
    rewrite ?String.eqb_eq, ?Z.eqb_eq, ?Bool.eqb_true_iff;
    intros H1 H2; subst; try reflexivity; try congruence.
  now apply int_of_bool_inj.
Qed.

Lemma same_items_sym (a b : Attributes) : same_items a b -> same_items b a.
Proof.
  intros H k. specialize (H k).
  destruct (dict_get k a), (dict_get k b); try assumption.
  now rewrite value_eq_sym.
Qed.

Lemma same_items_trans (a b c : Attributes) :
  same_items a b -> same_items b c -> same_items a c.
Proof.
  intros Hab Hbc k. specialize (Hab k). specialize (Hbc k).
  destruct (dict_get k a), (dict_get k b), (dict_get k c);
    try assumption; try contradiction.
  eapply value_eq_trans; eassumption.
Qed.

(** Property X14.  Two resources whose values are strings, booleans or
    integers are equal exactly when they have the same keys and, at every
    key, values that [==] holds between: the order of insertion plays no
    part, and [True] and [1], or [False] and [0], count as equal values.
    Values that are floats are outside this statement, as they are outside
    [LabelValue] here. *)
Theorem Resource_eq_iff_same_items (a b : Resource) :
  dict_wf (_attributes a) -> dict_wf (_attributes b) ->
  (Resource_eq a b = true <-> same_items (_attributes a) (_attributes b)).
Proof.
  intros Ha Hb. unfold Resource_eq. now apply dict_eq_same_items.
Qed.

Lemma Resource_eq_iff_same_items_witness :
  let a := Resource_init [("n", VInt 1); ("s", VStr "x")] in
  let b := Resource_init [("s", VStr "x"); ("n", VBool true)] in
  Resource_eq a b = true <-> same_items (_attributes a) (_attributes b).
Proof.
  intros a b.
  refine (Resource_eq_iff_same_items a b _ _); unfold dict_wf; simpl;
    repeat constructor; simpl; intuition discriminate.
Defined.

(** Property X15.  Equality of resources is an equivalence: every resource
    equals itself, [a == b] gives [b == a], and [a == b] with [b == c] gives
    [a == c]. *)
Theorem Resource_eq_equivalence (a b c : Resource) :
  dict_wf (_attributes a) -> dict_wf (_attributes b) ->
  dict_wf (_attributes c) ->
  Resource_eq a a = true
  /\ (Resource_eq a b = true -> Resource_eq b a = true)
  /\ (Resource_eq a b = true -> Resource_eq b c = true ->
      Resource_eq a c = true).
Proof.
  intros Ha Hb Hc. unfold Resource_eq. split; [| split].
  - now apply dict_eq_refl.
  - rewrite !dict_eq_same_items by assumption. apply same_items_sym.
  - rewrite !dict_eq_same_items by assumption. apply same_items_trans.
Qed.

Lemma Resource_eq_equivalence_witness :
  let a := Resource_init [("n", VInt 1); ("s", VStr "x")] in
  let b := Resource_init [("s", VStr "x"); ("n", VBool true)] in
  let c := Resource_init [("n", VInt 1); ("s", VStr "x")] in
  Resource_eq a a = true
  /\ (Resource_eq a b = true -> Resource_eq b a = true)
  /\ (Resource_eq a b = true -> Resource_eq b c = true ->
      Resource_eq a c = true).
Proof.
  intros a b c.
  refine (Resource_eq_equivalence a b c _ _ _); unfold dict_wf; simpl;
    repeat constructor; simpl; intuition discriminate.
Defined.

Lemma dict_wf_NoDup (d : Attributes) : dict_wf d -> NoDup d.
Proof.
  unfold dict_wf, keys. apply NoDup_map_inv.
Qed.

Lemma dict_In_iff_get (d : Attributes) (k : string) (v : LabelValue) :
  dict_wf d -> (In (k, v) d <-> dict_get k d = Some v).
Proof.
  intros Hwf. split; [now apply dict_get_of_In | apply dict_get_Some_In].
Qed.

(** Property X16.  On resources whose values are strings, as those of the
    environment detector are, the hash agrees with equality: equal
    resources have the same hash. *)
Theorem Resource_hash_agrees_on_strings (hash : string -> Z)
  (a b : Resource) :
  dict_wf (_attributes a) -> dict_wf (_attributes b) ->
  Forall (fun kv => exists s, snd kv = VStr s) (_attributes a) ->
  Resource_eq a b = true ->
  Resource_hash hash a = Resource_hash hash b.
Proof.
  intros Ha Hb Hstr Heq.
  unfold Resource_eq in Heq. apply (dict_eq_same_items _ _ Ha Hb) in Heq.
  assert (Hget : forall k, dict_get k (_attributes a)
                           = dict_get k (_attributes b)).
  { intros k. specialize (Heq k).
    destruct (dict_get k (_attributes a)) as [v |] eqn:Ga;
      destruct (dict_get k (_attributes b)) as [w |] eqn:Gb;
      try contradiction; [| reflexivity].
    apply dict_get_Some_In in Ga. rewrite Forall_forall in Hstr.
    destruct (Hstr _ Ga) as [s Hs]. simpl in Hs. subst v.
    destruct w as [t | t | t]; simpl in Heq; try discriminate.
    apply String.eqb_eq in Heq. now subst. }
  unfold Resource_hash. f_equal. apply dumps_sort_keys_perm; [exact Ha |].
  apply NoDup_Permutation; try (now apply dict_wf_NoDup).
  intros [k v]. rewrite !dict_In_iff_get by assumption. now rewrite Hget.
Qed.

Lemma Resource_hash_agrees_on_strings_witness :
  let a := Resource_init [("b", VStr "2"); ("a", VStr "1")] in
  let b := Resource_init [("a", VStr "1"); ("b", VStr "2")] in
  Resource_hash (fun s => Z.of_nat (String.length s)) a
  = Resource_hash (fun s => Z.of_nat (String.length s)) b.
Proof.
  intros a b.
  refine (Resource_hash_agrees_on_strings _ a b _ _ _ _).
  - unfold dict_wf. simpl. repeat constructor; simpl; intuition discriminate.
  - unfold dict_wf. simpl. repeat constructor; simpl; intuition discriminate.
  - repeat constructor; simpl; eauto.
  - reflexivity.
Defined.

(** ** create: the attributes of the result, and the objects it touches *)

(** Property X17.  The resource [Resource.create] returns has the three SDK
    keys first, in the order of the default map, then the caller's keys that
    are not among them, in the caller's order; and at every key that is not
    an SDK key it holds what the caller gave. *)
Theorem create_attributes (version : string) (attrs : Attributes) :
  dict_wf attrs ->
  keys (attributes (create version attrs))
  = [TELEMETRY_SDK_LANGUAGE; TELEMETRY_SDK_NAME; TELEMETRY_SDK_VERSION]
    ++ filter
         (fun k =>
            negb (dict_contains k (attributes (_DEFAULT_RESOURCE version))))
         (keys attrs)
  /\ forall k,
      dict_get k (attributes (_DEFAULT_RESOURCE version)) = None ->
      dict_get k (attributes (create version attrs)) = dict_get k attrs.
Proof.
  intros Hwf. destruct attrs as [| kv attrs].
  - split; [reflexivity |]. intros k Hk. exact Hk.
  - unfold create. cbn [dict_is_empty]. unfold attributes, dict_copy.
    split.
    + now rewrite merge_keys.
    + intros k Hk. rewrite merge_get by exact Hwf. now rewrite Hk.
Qed.

Lemma create_attributes_witness :
  let attrs := [("x", VStr "y"); (TELEMETRY_SDK_NAME, VStr "mine");
                ("n", VInt 3)] in
  keys (attributes (create "0.13" attrs))
  = [TELEMETRY_SDK_LANGUAGE; TELEMETRY_SDK_NAME; TELEMETRY_SDK_VERSION;
     "x"; "n"]
  /\ forall k,
      dict_get k (attributes (_DEFAULT_RESOURCE "0.13")) = None ->
      dict_get k (attributes (create "0.13" attrs)) = dict_get k attrs.
Proof.
  intros attrs.
  refine (create_attributes "0.13" attrs _).
  unfold dict_wf. simpl. repeat constructor; simpl; intuition discriminate.
Defined.

(** Property X18.  On objects, [Resource.create] changes no dictionary that
    exists when it is called, neither the one it is given nor that of
    [_DEFAULT_RESOURCE], and the resource it returns holds the value of
    [create] for the items of the dictionary it is given. *)
Theorem store_create_frame (version : string) (h : Store.heap)
  (default : Store.ResourceObj) (a : Store.addr) :
  Store._attributes default < List.length h ->
  a < List.length h ->
  Store.value_of default h = _DEFAULT_RESOURCE version ->
  let (r, h') := Store.create default a h in
  (forall b, b < List.length h -> Store.content b h' = Store.content b h)
  /\ Store.value_of r h' = create version (Store.content a h).
Proof.
  intros Hd Ha Hval.
  unfold Store.create, Store.bind, Store.load.
  destruct (Store.content a h) as [| kv d] eqn:Hc; cbn [dict_is_empty].
  - unfold Store.ret. split; [reflexivity | exact Hval].
  - unfold Store.Resource_init, Store.bind, Store.ret. rewrite copy_spec.
    rewrite Hc. cbv beta iota.
    match goal with
    | |- context [Store.merge default ?r ?hh] =>
        set (r1 := r); set (h1 := hh)
    end.
    assert (Hlen1 : List.length h1 = S (List.length h)).
    { unfold h1. rewrite length_app. simpl. lia. }
    pose proof (store_merge_spec default r1 h1) as Hm.
    destruct (Store.merge default r1 h1) as [r h'].
    destruct Hm as (_ & Hold & Hres); [lia | simpl; lia |].
    cbv beta iota. split.
    + intros b Hb. rewrite Hold by lia. unfold h1.
      now apply content_app_old.
    + rewrite Hres. unfold create. cbn [dict_is_empty]. f_equal.
      * unfold Store.value_of in *. unfold h1.
        rewrite content_app_old by exact Hd. exact Hval.
      * unfold Store.value_of, r1, h1. simpl Store._attributes.
        now rewrite content_app_new.
Qed.

Lemma store_create_frame_witness :
  let h := [_attributes (_DEFAULT_RESOURCE "0.13");
            [("x", VStr "y"); (TELEMETRY_SDK_NAME, VStr "mine")]] in
  let default := Store.mkObj 0 in
  let (r, h') := Store.create default 1 h in
  (forall b, b < List.length h -> Store.content b h' = Store.content b h)
  /\ Store.value_of r h' = create "0.13" (Store.content 1 h).
Proof.
  intros h default.
  refine (store_create_frame "0.13" h default 1 _ _ _).
  - simpl. lia.
  - simpl. lia.
  - reflexivity.
Defined.

(** ** The initial resource and the aggregation without it *)

Lemma fold_merge_merge (rs : list Resource) (a b : Resource) :
  dict_wf (_attributes a) -> dict_wf (_attributes b) ->
  Forall (fun r => dict_wf (_attributes r)) rs ->
  fold_merge (merge a b) rs = merge a (fold_merge b rs).
Proof.
  intros Ha Hb Hrs. revert b Hb.
  induction Hrs as [| r rs Hr _ IH]; intros b Hb; simpl; [reflexivity |].
  rewrite merge_merge by assumption.
  apply IH. now apply merge_wf.
Qed.

Lemma contribution_wf (o : bool * result Resource) :
  (forall r, snd o = Return r -> dict_wf (_attributes r)) ->
  dict_wf (_attributes (contribution o)).
Proof.
  intros H. unfold contribution. destruct (snd o) as [r | e].
  - now apply H.
  - constructor.
Qed.

Lemma observe_all_wf (done : nat -> bool) (i : nat)
  (ds : list ResourceDetector) :
  Forall (fun d => forall r, detect d = Return r ->
                             dict_wf (_attributes r)) ds ->
  Forall (fun r => dict_wf (_attributes r))
    (map contribution (observe_all done i ds)).
Proof.
  intros H. revert i.
  induction H as [| d ds Hd _ IH]; intros i; simpl; constructor.
  - apply contribution_wf. unfold observe, submit. simpl.
    destruct (done i); simpl; [exact Hd | discriminate].
  - apply IH.
Qed.

(** Property X19.  Passing an initial resource is merging it in front of
    what the aggregation gives without it: when the detectors have their
    flags off and raise nothing but exceptions deriving from [Exception],
    [get_aggregated_resources(detectors, initial)] returns
    [initial.merge(r)], where [r] is what
    [get_aggregated_resources(detectors)] returns. *)
Theorem aggregation_initial_in_front (environ : option string)
  (done : nat -> bool) (ds : list ResourceDetector) (initial : Resource) :
  dict_wf (_attributes initial) ->
  Forall (fun d => raise_on_error d = false
                   /\ (forall e, detect d = Raise e -> is_Exception e = true)
                   /\ (forall r, detect d = Return r ->
                                 dict_wf (_attributes r))) ds ->
  exists r,
    get_aggregated_resources environ done ds None = Return r
    /\ get_aggregated_resources environ done ds (Some initial)
       = Return (merge initial r).
Proof.
  intros Hinit Hds.
  assert (Hno : Forall (fun o => aborting o = false)
                  (observe_all done 0 (OTELResourceDetector environ :: ds))).
  { simpl observe_all. constructor; [apply OTEL_not_aborting |].
    apply observe_all_no_abort. intros j d Hj.
    rewrite Forall_forall in Hds.
    destruct (Hds d (nth_error_In _ _ Hj)) as (Hflag & Herr & _).
    now apply contained_not_aborting. }
  assert (Hwf : Forall (fun r => dict_wf (_attributes r))
                  (map contribution
                     (observe_all done 0
                        (OTELResourceDetector environ :: ds)))).
  { apply observe_all_wf. constructor.
    - intros r Hr. exact (OTEL_detect_wf _ _ Hr).
    - eapply Forall_impl; [| exact Hds]. intros d (_ & _ & H). exact H. }
  rewrite !get_aggregated_resources_observed.
  rewrite !fold_observed_no_abort by exact Hno.
  eexists. split; [reflexivity |]. f_equal.
  cbn [seed].
  rewrite <- (merge_empty_r initial) at 1.
  apply fold_merge_merge; [exact Hinit | constructor | exact Hwf].
Qed.

Lemma aggregation_initial_in_front_witness :
  let D1 := mkDetector false (Raise (Exception_ "ConnectionError")) in
  let D2 := mkDetector false (Return (Resource_init [("b", VStr "3")])) in
  let initial := Resource_init [("a", VStr EmptyString); ("z", VInt 0)] in
  exists r,
    get_aggregated_resources (Some "a=1") (fun _ => true) [D1; D2] None
    = Return r
    /\ get_aggregated_resources (Some "a=1") (fun _ => true) [D1; D2]
         (Some initial)
       = Return (merge initial r).
Proof.
  intros D1 D2 initial.
  refine (aggregation_initial_in_front (Some "a=1") (fun _ => true) [D1; D2]
            initial _ _).
  - unfold dict_wf. simpl. repeat constructor; simpl; intuition discriminate.
  - repeat constructor; simpl; try (intros e H; now injection H as <-);
      try (intros r H; discriminate); try (intros e H; discriminate).
    intros r H. injection H as <-. unfold dict_wf. simpl.
    repeat constructor; simpl; tauto.
Defined.
